(** * The image-handler Lambda entry point (source/image-handler/index.ts)

    A shallow embedding of [handler], [getResponseHeaders] and
    [getRedirectResponse], together with the part of the JavaScript run
    time those three functions rely on: dynamically typed values, their
    truthiness, template interpolation, [JSON.stringify] and the base64
    rendering of a buffer.

    Response headers are JavaScript objects used as maps, so they are
    finite maps from header names to values.  Objects whose property
    order is observable (a thrown error handed to [JSON.stringify]) are
    association lists in insertion order.

    The handler is asynchronous and awaits three collaborators, which are
    not part of it: the request set-up, the image processing and the fetch
    of the default fallback image.  Each is a function to the outcome of
    its promise, and the handler is written in a small monad that carries
    the one variable it assigns, [imageRequestInfo], the calls made, and
    exceptions, and that logs the calls of the header builder with their
    arguments.  Logging to the console is left out.  The event is an
    object, as the handler's types have it.  What a [catch] clause
    receives is any value: a promise can be rejected with [undefined] as
    well as with an error object, and the [catch] blocks read properties
    of that value and serialise it outside any further [try]. *)

From Stdlib Require Import ZArith String Ascii List Bool Lia.
From stdpp Require Import base gmap strings list pretty.

Set Warnings "-register-all".
Open Scope Z_scope.
Open Scope string_scope.

(** ** JavaScript values *)

Module Js.

(** The values a response, a request description or an error can carry.
    Numbers are the integral ones (status codes, sizes); an object lists
    its own enumerable properties in insertion order. *)
Inductive value : Type :=
| VUndefined
| VNull
| VBool (b : bool)
| VNum (n : Z)
| VStr (s : string)
| VArr (items : list value)
| VObj (props : list (string * value)).

(** ToBoolean: what [if (v)], [v ? a : b], [!v] and [v && w] test. *)
Definition truthy (v : value) : bool :=
  match v with
  | VUndefined | VNull => false
  | VBool b => b
  | VNum n => negb (n =? 0)%Z
  | VStr s => negb (String.eqb s EmptyString)
  | VArr _ | VObj _ => true
  end.

(** [a && b]: the left operand when it is falsy, else the right one. *)
Definition and_then (a : value) (b : value -> value) : value :=
  if truthy a then b a else a.

(** First binding of [k] in a property list. *)
Fixpoint assoc {A : Type} (k : string) (ps : list (string * A)) : option A :=
  match ps with
  | [] => None
  | (k', x) :: ps' => if String.eqb k k' then Some x else assoc k ps'
  end.

Definition keys {A : Type} (ps : list (string * A)) : list string :=
  List.map fst ps.

(** [Object.prototype.hasOwnProperty.call(v, k)] for a [v] that is not
    null or undefined.  A primitive is wrapped first; for the names used
    here (no index, not "length") the wrapper has no such property. *)
Definition hasOwnProperty (v : value) (k : string) : bool :=
  match v with
  | VObj props =>
      match assoc k props with
      | Some _ => true
      | None => false
      end
  | _ => false
  end.

(** [a === b] against a string literal. *)
Definition strict_eq_str (v : value) (lit : string) : bool :=
  match v with
  | VStr s => String.eqb s lit
  | _ => false
  end.

(** A template placeholder holding a string that may be missing:
    an absent value is rendered as the text "undefined". *)
Definition interpolate (s : option string) : string :=
  match s with
  | Some s => s
  | None => "undefined"
  end.

(** A string read from the environment or a request, as a value. *)
Definition of_option (s : option string) : value :=
  match s with
  | Some s => VStr s
  | None => VUndefined
  end.

End Js.
Export Js.

(** ** JSON.stringify *)

Module JSON.

Inductive json : Type :=
| JNull
| JBool (b : bool)
| JNum (n : Z)
| JStr (s : string)
| JArr (items : list json)
| JObj (members : list (string * json)).

(** SerializeJSONProperty on the value side: [undefined] has no JSON
    form; as an array element it becomes [null], as a property value it
    makes the property disappear. *)
Fixpoint of_value (v : value) : option json :=
  match v with
  | VUndefined => None
  | VNull => Some JNull
  | VBool b => Some (JBool b)
  | VNum n => Some (JNum n)
  | VStr s => Some (JStr s)
  | VArr items =>
      Some (JArr (List.map (fun x => default JNull (of_value x)) items))
  | VObj props =>
      Some (JObj ((fix members (ps : list (string * value)) :=
                     match ps with
                     | [] => []
                     | (k, x) :: ps' =>
                         match of_value x with
                         | Some j => (k, j) :: members ps'
                         | None => members ps'
                         end
                     end) props))
  end.

(** The members an object's property list serialises to. *)
Fixpoint members_of (ps : list (string * value)) : list (string * json) :=
  match ps with
  | [] => []
  | (k, x) :: ps' =>
      match of_value x with
      | Some j => (k, j) :: members_of ps'
      | None => members_of ps'
      end
  end.

(** The double-quote character. *)
Definition dquote : ascii := ascii_of_N 34.

(** The reverse solidus. *)
Definition backslash : ascii := ascii_of_N 92.

Definition hex_digit (n : N) : ascii :=
  default "0"%char (String.get (N.to_nat n) "0123456789abcdef").

(** QuoteJSONString, one character at a time. *)
Definition escape_char (c : ascii) : string :=
  let n := N_of_ascii c in
  if (n =? 8)%N then "\b"
  else if (n =? 9)%N then "\t"
  else if (n =? 10)%N then "\n"
  else if (n =? 12)%N then "\f"
  else if (n =? 13)%N then "\r"
  else if (n =? 34)%N then String backslash (String dquote EmptyString)
  else if (n =? 92)%N then "\\"
  else if (n <? 32)%N then
    "\u00" +:+ String (hex_digit (n / 16))
                        (String (hex_digit (n mod 16)) EmptyString)
  else String c EmptyString.

Fixpoint escape (s : string) : string :=
  match s with
  | EmptyString => EmptyString
  | String c s' => escape_char c +:+ escape s'
  end.

Definition quote (s : string) : string :=
  String dquote (escape s +:+ String dquote EmptyString).

(** The compact text of a JSON tree (no gap argument). *)
Fixpoint render (j : json) : string :=
  match j with
  | JNull => "null"
  | JBool true => "true"
  | JBool false => "false"
  | JNum n => pretty n
  | JStr s => quote s
  | JArr items => "[" +:+ String.concat "," (List.map render items) +:+ "]"
  | JObj members =>
      "{" +:+ String.concat ","
                (List.map (fun m => quote (fst m) +:+ ":" +:+ render (snd m))
                          members)
          +:+ "}"
  end.

(** [JSON.stringify(v)]: a string, or [undefined] when [v] is. *)
Definition stringify (v : value) : value :=
  match of_value v with
  | Some j => VStr (render j)
  | None => VUndefined
  end.


End JSON.

(** ** Buffer.toString("base64") *)

Module Base64.

Definition alphabet : string :=
  "ABCDEFGHIJKLMNOPQRSTUVWXYZabcdefghijklmnopqrstuvwxyz0123456789+/".

Definition digit (n : N) : ascii :=
  default "="%char (String.get (N.to_nat n) alphabet).

(** Three bytes give four digits; a tail of one or two bytes is padded. *)
Fixpoint encode (bs : list Byte.byte) : string :=
  match bs with
  | [] => EmptyString
  | [a] =>
      let x := Byte.to_N a in
      String (digit (x / 4)) (String (digit ((x mod 4) * 16)) "==")
  | [a; b] =>
      let x := Byte.to_N a in
      let y := Byte.to_N b in
      String (digit (x / 4))
        (String (digit ((x mod 4) * 16 + y / 16))
           (String (digit ((y mod 16) * 4)) "="))
  | a :: b :: c :: rest =>
      let x := Byte.to_N a in
      let y := Byte.to_N b in
      let z := Byte.to_N c in
      String (digit (x / 4))
        (String (digit ((x mod 4) * 16 + y / 16))
           (String (digit ((y mod 16) * 4 + z / 64))
              (String (digit (z mod 64)) (encode rest))))
  end%N.

End Base64.

(** ** Data model *)

Abbreviation Headers := (gmap string value).

(** [process.env]: every variable is a string or is not set. *)
Record ProcessEnv : Type := {
  CORS_ENABLED : option string;
  CORS_ORIGIN : option string;
  HIGHRES_CDN_URL : option string;
  ENABLE_DEFAULT_FALLBACK_IMAGE : option string;
  DEFAULT_FALLBACK_IMAGE_BUCKET : option string;
  DEFAULT_FALLBACK_IMAGE_KEY : option string
}.

(** Modelled from the spec: the [StatusCodes] enumeration of [./lib] is not
    part of the sources at hand; the three members the handler uses are
    OK (200), MOVED (the 301 redirect) and INTERNAL_SERVER_ERROR (500). *)
Module StatusCodes.
Definition OK : value := VNum 200.
Definition MOVED : value := VNum 301.
Definition INTERNAL_SERVER_ERROR : value := VNum 500.
End StatusCodes.

(** The inbound event.  Only [requestContext] is read by the handler
    itself; the other fields travel to the request set-up untouched. *)
Module Event.
Record t : Type := {
  path : value;
  queryStringParameters : value;
  requestContext : value;
  headers : value
}.
End Event.
Abbreviation ImageHandlerEvent := Event.t.

(** [ImageRequestInfo].  The handler starts from the empty object
    [{} as ImageRequestInfo], so every property may be missing: a missing
    string or mapping is [None], a missing header source [VUndefined]. *)
Module Info.
Record t : Type := {
  key : option string;
  edits : option (list (string * value));
  contentType : value;
  expires : value;
  lastModified : value;
  cacheControl : value;
  headers : option Headers
}.

(** The object literal [{}]. *)
Definition empty : t :=
  {| key := None; edits := None;
     contentType := VUndefined; expires := VUndefined;
     lastModified := VUndefined; cacheControl := VUndefined;
     headers := None |}.
End Info.
Abbreviation ImageRequestInfo := Info.t.

(** [ImageHandlerExecutionResult], the only thing the handler hands back. *)
Record ImageHandlerExecutionResult : Type := {
  statusCode : value;
  isBase64Encoded : bool;
  headers : Headers;
  body : value
}.

(** What [s3Client.getObject(...).promise()] resolves to.  [Body] is a
    buffer when the object has content. *)
Record GetObjectOutput : Type := {
  Body : option (list Byte.byte);
  ContentType : value;
  LastModified : value
}.

Record GetObjectRequest : Type := {
  Bucket : option string;
  Key : option string
}.

(** A thrown error is an object, given by its own enumerable properties
    in insertion order: the ones [JSON.stringify] writes.  The two
    properties the handler reads, [code] and [status], are assigned by the
    constructor of the error that carries them, so they are among these.
    What an [Error] instance keeps non-enumerable (message, stack) is
    never looked at. *)
Definition ErrorObject : Type := list (string * value).

(** A property read, [error.k]. *)
Definition get (error : ErrorObject) (k : string) : value :=
  default VUndefined (assoc k error).

(** The [TypeError] the run time raises: its message is not enumerable
    and it has neither a code nor a status. *)
Definition TypeError : ErrorObject := [].

(** What a [catch] clause can receive.  A promise may be rejected with
    any value, an error object or not, [undefined] and [null] included.
    And an error object need not be plain data: when its object graph
    has a cycle or holds a [BigInt], its properties can still be read
    but [JSON.stringify] refuses it; [ThrownCyclic] lists the own
    enumerable properties of such an object.  Functions, symbols and
    objects with accessor properties are left out. *)
Inductive thrown : Type :=
| Thrown (v : value)
| ThrownCyclic (own : list (string * value)).

(** An error object of plain data, as a thrown value. *)
Definition ofObject (error : ErrorObject) : thrown := Thrown (VObj error).
Coercion ofObject : ErrorObject >-> thrown.

(** A property read [thrown.k], for the two names read off a caught
    value, [code] and [status].  Reading a property of [undefined] or
    [null] raises a [TypeError], written [None]; a primitive or an array
    has no property of these names. *)
Definition propertyOf (t : thrown) (k : string) : option value :=
  match t with
  | Thrown VUndefined | Thrown VNull => None
  | Thrown (VObj props) => Some (get props k)
  | Thrown _ => Some VUndefined
  | ThrownCyclic own => Some (get own k)
  end.

(** Modelled from the spec: [isNullOrWhiteSpace] of
    [../solution-utils/helpers] is not part of the sources at hand.  A
    fallback bucket or key counts as configured when it is non-empty and
    not white space; so the helper answers [true] for a missing string,
    the empty string and a string of white-space characters only. *)
Definition is_white_space (c : ascii) : bool :=
  let n := N_of_ascii c in
  ((9 <=? n) && (n <=? 13) || (n =? 32))%N.

Fixpoint all_white_space (s : string) : bool :=
  match s with
  | EmptyString => true
  | String c s' => is_white_space c && all_white_space s'
  end.

Definition isNullOrWhiteSpace (str : option string) : bool :=
  match str with
  | None => true
  | Some s => all_white_space s
  end.

(** ** Response construction *)

Section Responses.

Variable env : ProcessEnv.

(** [getResponseHeaders(isError, isAlb)].  The flag [isAlb] arrives as
    the caller computed it, so it is a value tested for truthiness; the
    default parameter value [false] replaces [undefined] and is falsy
    as well. *)
Definition getResponseHeaders (isError : bool) (isAlb : value) : Headers :=
  let corsEnabled :=
    match CORS_ENABLED env with
    | Some s => String.eqb s "Yes"
    | None => false
    end in
  let headers : Headers :=
    <["Access-Control-Allow-Headers" := VStr "Content-Type, Authorization"]>
      (<["Access-Control-Allow-Methods" := VStr "GET"]> ∅) in
  let headers :=
    if negb (truthy isAlb)
    then <["Access-Control-Allow-Credentials" := VBool true]> headers
    else headers in
  let headers :=
    if corsEnabled
    then <["Access-Control-Allow-Origin" := of_option (CORS_ORIGIN env)]> headers
    else headers in
  let headers :=
    if isError
    then <["Content-Type" := VStr "application/json"]> headers
    else headers in
  headers.

(** [getRedirectResponse(imageRequestInfo)]. *)
Definition getRedirectResponse (imageRequestInfo : ImageRequestInfo)
  : ImageHandlerExecutionResult :=
  {| statusCode := StatusCodes.MOVED;
     isBase64Encoded := false;
     headers :=
       {[ "Location" :=
            VStr (interpolate (HIGHRES_CDN_URL env) +:+ "/" +:+
                  interpolate (Info.key imageRequestInfo)) ]};
     body := VNull |}.

End Responses.

(** ** Exceptions, the handler's mutable variable and the collaborators *)

(** How an evaluation ends: with a value, or by throwing.  For the
    asynchronous handler these are the fulfilled and the rejected promise. *)
Inductive completion (A : Type) : Type :=
| Normal (a : A)
| Throw (error : thrown).
Arguments Normal {A} a.
Arguments Throw {A} error.

(** The awaited calls, in the order they are made. *)
Inductive Call : Type :=
| CallSetup (event : ImageHandlerEvent)
| CallProcess (imageRequestInfo : ImageRequestInfo)
| CallGetObject (request : GetObjectRequest).

(** The state of one invocation: the variable [imageRequestInfo], which
    the [try] block assigns and the [catch] block reads, the calls made
    to the collaborators so far, and the calls made to the header
    builder so far, each with its two arguments [isError] and [isAlb]. *)
Record Frame : Type := {
  imageRequestInfo : ImageRequestInfo;
  calls : list Call;
  headerCalls : list (bool * value)
}.

Definition M (A : Type) : Type := Frame -> Frame * completion A.

Definition ret {A : Type} (a : A) : M A :=
  fun s => (s, Normal a).

Definition throw {A : Type} (error : thrown) : M A :=
  fun s => (s, Throw error).

Definition bind {A B : Type} (m : M A) (k : A -> M B) : M B :=
  fun s =>
    match m s with
    | (s', Normal a) => k a s'
    | (s', Throw error) => (s', Throw error)
    end.

Notation "x <- m ;; k" := (bind m (fun x => k))
  (at level 100, m at next level, right associativity).
Notation "m ;; k" := (bind m (fun _ => k))
  (at level 100, right associativity).

(** [try { body } catch (error) { handler }]. *)
Definition try_catch {A : Type} (body : M A) (handler : thrown -> M A) : M A :=
  fun s =>
    match body s with
    | (s', Normal a) => (s', Normal a)
    | (s', Throw error) => handler error s'
    end.

(** Reading and assigning the variable [imageRequestInfo]. *)
Definition read : M ImageRequestInfo :=
  fun s => (s, Normal (imageRequestInfo s)).

Definition assign (info : ImageRequestInfo) : M unit :=
  fun s => ({| imageRequestInfo := info; calls := calls s;
               headerCalls := headerCalls s |}, Normal tt).

(** [await] of a collaborator's promise: the call is recorded and its
    outcome becomes the outcome of the expression. *)
Definition await {A : Type} (c : Call) (outcome : completion A) : M A :=
  fun s => ({| imageRequestInfo := imageRequestInfo s; calls := calls s ++ [c];
               headerCalls := headerCalls s |},
            outcome).

(** [Object.keys(o)]: the own enumerable property names; a missing
    argument raises a [TypeError]. *)
Definition Object_keys (o : option (list (string * value))) : M (list string) :=
  match o with
  | Some props => ret (keys props)
  | None => throw TypeError
  end.

(** [buffer.toString(base64)] on the [Body] of a fetched object; reading
    the method off a missing body raises a [TypeError]. *)
Definition toString_base64 (body : option (list Byte.byte)) : M string :=
  match body with
  | Some bytes => ret (Base64.encode bytes)
  | None => throw TypeError
  end.

(** A property read off a caught value, [error.k]. *)
Definition property (t : thrown) (k : string) : M value :=
  match propertyOf t k with
  | Some v => ret v
  | None => throw TypeError
  end.

(** [JSON.stringify(error)] on a caught value: a [TypeError] for an
    object it cannot serialise. *)
Definition stringifyThrown (t : thrown) : M value :=
  match t with
  | Thrown v => ret (JSON.stringify v)
  | ThrownCyclic _ => throw TypeError
  end.

(** The three collaborators, each answering a call with the outcome of
    its promise: [ImageRequest.setup], [ImageHandler.process] and
    [S3.getObject(...).promise()]. *)
Record Collaborators : Type := {
  setup : ImageHandlerEvent -> completion ImageRequestInfo;
  process : ImageRequestInfo -> completion string;
  getObject : GetObjectRequest -> completion GetObjectOutput
}.

(** ** The handler *)

Section Handler.

Variable env : ProcessEnv.

Variable world : Collaborators.

(** The flag computed on the first lines of [handler]:
    [event.requestContext && hasOwnProperty.call(event.requestContext, "elb")]. *)
Definition isAlb_of (event : ImageHandlerEvent) : value :=
  and_then (Event.requestContext event)
           (fun requestContext => VBool (hasOwnProperty requestContext "elb")).

(** A call [getResponseHeaders(isError, isAlb)]: it is recorded with
    its arguments and gives what the builder returns. *)
Definition callGetResponseHeaders (isError : bool) (isAlb : value) : M Headers :=
  fun s => ({| imageRequestInfo := imageRequestInfo s; calls := calls s;
               headerCalls := headerCalls s ++ [(isError, isAlb)] |},
            Normal (getResponseHeaders env isError isAlb)).

(** The inner [try] of the default-fallback tier.  Its [return] leaves
    the handler with a response, [Some]; its [catch] only logs, and
    control then runs on to the structured error, [None]. *)
Definition defaultFallback (error : thrown) (isAlb : value)
  : M (option ImageHandlerExecutionResult) :=
  if strict_eq_str (of_option (ENABLE_DEFAULT_FALLBACK_IMAGE env)) "Yes"
     && negb (isNullOrWhiteSpace (DEFAULT_FALLBACK_IMAGE_BUCKET env))
     && negb (isNullOrWhiteSpace (DEFAULT_FALLBACK_IMAGE_KEY env))
  then
    try_catch
      (let request := {| Bucket := DEFAULT_FALLBACK_IMAGE_BUCKET env;
                         Key := DEFAULT_FALLBACK_IMAGE_KEY env |} in
       defaultFallbackImage <- await (CallGetObject request) (getObject world request) ;;
       headers <- callGetResponseHeaders false isAlb ;;
       let headers := <["Content-Type" := ContentType defaultFallbackImage]> headers in
       let headers := <["Last-Modified" := LastModified defaultFallbackImage]> headers in
       let headers := <["Cache-Control" := VStr "max-age=31536000,public"]> headers in
       status <- property error "status" ;;
       encoded <- toString_base64 (Body defaultFallbackImage) ;;
       ret (Some {| statusCode :=
                      if truthy status then status
                      else StatusCodes.INTERNAL_SERVER_ERROR;
                    isBase64Encoded := true;
                    headers := headers;
                    body := VStr encoded |}))
      (fun _ => ret None)
  else ret None.

(** The structured error at the end of the [catch] block. *)
Definition structuredErrorTier (error : thrown) (isAlb : value)
  : M ImageHandlerExecutionResult :=
  status <- property error "status" ;;
  if truthy status then
    headers <- callGetResponseHeaders true isAlb ;;
    body <- stringifyThrown error ;;
    ret {| statusCode := status;
           isBase64Encoded := false;
           headers := headers;
           body := body |}
  else
    headers <- callGetResponseHeaders true isAlb ;;
    ret {| statusCode := StatusCodes.INTERNAL_SERVER_ERROR;
           isBase64Encoded := false;
           headers := headers;
           body :=
             JSON.stringify
               (VObj [("message", VStr "Internal error. Please contact the system administrator.");
                      ("code", VStr "InternalError");
                      ("status", StatusCodes.INTERNAL_SERVER_ERROR)]) |}.

(** The [try] block of [handler]. *)
Definition tryBlock (event : ImageHandlerEvent) (isAlb : value)
  : M ImageHandlerExecutionResult :=
  info <- await (CallSetup event) (setup world event) ;;
  assign info ;;
  imageRequestInfo <- read ;;
  names <- Object_keys (Info.edits imageRequestInfo) ;;
  if Nat.eqb (length names) 0
     && negb (strict_eq_str (of_option (Info.key imageRequestInfo)) EmptyString)
  then ret (getRedirectResponse env imageRequestInfo)
  else
    processedRequest <- await (CallProcess imageRequestInfo) (process world imageRequestInfo) ;;
    headers <- callGetResponseHeaders false isAlb ;;
    let headers := <["Content-Type" := Info.contentType imageRequestInfo]> headers in
    let headers := <["Expires" := Info.expires imageRequestInfo]> headers in
    let headers := <["Last-Modified" := Info.lastModified imageRequestInfo]> headers in
    let headers := <["Cache-Control" := Info.cacheControl imageRequestInfo]> headers in
    let headers :=
      match Info.headers imageRequestInfo with
      | Some custom => custom ∪ headers
      | None => headers
      end in
    ret {| statusCode := StatusCodes.OK;
           isBase64Encoded := true;
           headers := headers;
           body := VStr processedRequest |}.

(** The [catch (error)] block of [handler].  It reads [error.code]
    first, which throws when what was caught is [undefined] or [null];
    nothing catches what the block itself throws. *)
Definition catchBlock (isAlb : value) (error : thrown)
  : M ImageHandlerExecutionResult :=
  code <- property error "code" ;;
  if strict_eq_str code "TooLargeImageException"
  then
    imageRequestInfo <- read ;;
    ret (getRedirectResponse env imageRequestInfo)
  else
    fallback <- defaultFallback error isAlb ;;
    match fallback with
    | Some response => ret response
    | None => structuredErrorTier error isAlb
    end.

Definition handler (event : ImageHandlerEvent) : M ImageHandlerExecutionResult :=
  let isAlb := isAlb_of event in
  try_catch (tryBlock event isAlb) (catchBlock isAlb).

(** The frame an invocation starts from: [imageRequestInfo] is the empty
    object and no call has been made. *)
Definition initial : Frame :=
  {| imageRequestInfo := Info.empty; calls := []; headerCalls := [] |}.

(** One invocation. *)
Definition invoke (event : ImageHandlerEvent)
  : Frame * completion ImageHandlerExecutionResult :=
  handler event initial.

(** The [try] block of that invocation on its own: how it ends, and the
    frame it leaves for the [catch] block. *)
Definition attempt (event : ImageHandlerEvent)
  : Frame * completion ImageHandlerExecutionResult :=
  tryBlock event (isAlb_of event) initial.

(** The promise the caller of [handler] holds. *)
Definition settled (event : ImageHandlerEvent)
  : completion ImageHandlerExecutionResult :=
  snd (invoke event).

(** The calls the invocation made. *)
Definition trace (event : ImageHandlerEvent) : list Call :=
  calls (fst (invoke event)).

(** The calls of the header builder the invocation made. *)
Definition headerLog (event : ImageHandlerEvent) : list (bool * value) :=
  headerCalls (fst (invoke event)).

(** ** Readings of the handler

    Names for the pieces the properties below talk about. *)

(** The request the default-fallback tier sends to object storage. *)
Definition fallbackRequest : GetObjectRequest :=
  {| Bucket := DEFAULT_FALLBACK_IMAGE_BUCKET env;
     Key := DEFAULT_FALLBACK_IMAGE_KEY env |}.

(** The default-fallback tier is switched on and names a bucket and a key. *)
Definition fallbackConfigured : bool :=
  strict_eq_str (of_option (ENABLE_DEFAULT_FALLBACK_IMAGE env)) "Yes"
  && negb (isNullOrWhiteSpace (DEFAULT_FALLBACK_IMAGE_BUCKET env))
  && negb (isNullOrWhiteSpace (DEFAULT_FALLBACK_IMAGE_KEY env)).

(** The decision gate: no edits, and a key that is not the empty string. *)
Definition passThrough (info : ImageRequestInfo) : bool :=
  match Info.edits info with
  | Some edits =>
      Nat.eqb (length (keys edits)) 0
      && negb (strict_eq_str (of_option (Info.key info)) EmptyString)
  | None => false
  end.

(** The headers of a successful response, as [tryBlock] assembles them. *)
Definition successHeaders (info : ImageRequestInfo) (isAlb : value) : Headers :=
  let base :=
    <["Cache-Control" := Info.cacheControl info]>
      (<["Last-Modified" := Info.lastModified info]>
         (<["Expires" := Info.expires info]>
            (<["Content-Type" := Info.contentType info]>
               (getResponseHeaders env false isAlb)))) in
  match Info.headers info with
  | Some custom => custom ∪ base
  | None => base
  end.

(** The headers of a default-fallback response. *)
Definition fallbackHeaders (object : GetObjectOutput) (isAlb : value) : Headers :=
  <["Cache-Control" := VStr "max-age=31536000,public"]>
    (<["Last-Modified" := LastModified object]>
       (<["Content-Type" := ContentType object]>
          (getResponseHeaders env false isAlb))).

(** The structured error for an error object of plain data. *)
Definition structuredError (error : ErrorObject) (isAlb : value)
  : ImageHandlerExecutionResult :=
  if truthy (get error "status") then
    {| statusCode := get error "status";
       isBase64Encoded := false;
       headers := getResponseHeaders env true isAlb;
       body := JSON.stringify (VObj error) |}
  else
    {| statusCode := StatusCodes.INTERNAL_SERVER_ERROR;
       isBase64Encoded := false;
       headers := getResponseHeaders env true isAlb;
       body :=
         JSON.stringify
           (VObj [("message", VStr "Internal error. Please contact the system administrator.");
                  ("code", VStr "InternalError");
                  ("status", StatusCodes.INTERNAL_SERVER_ERROR)]) |}.

(** [error.status ? error.status : StatusCodes.INTERNAL_SERVER_ERROR]. *)
Definition statusOr500 (error : ErrorObject) : value :=
  if truthy (get error "status") then get error "status"
  else StatusCodes.INTERNAL_SERVER_ERROR.

(** The response of the default-fallback tier for a fetched object. *)
Definition fallbackResponse (error : ErrorObject) (isAlb : value)
    (object : GetObjectOutput) (bytes : list Byte.byte)
  : ImageHandlerExecutionResult :=
  {| statusCode := statusOr500 error;
     isBase64Encoded := true;
     headers := fallbackHeaders object isAlb;
     body := VStr (Base64.encode bytes) |}.

(** The response the [catch] block settles on for an error object of
    plain data, read off its three tiers in order. *)
Definition catchResponse (isAlb : value) (error : ErrorObject)
    (info : ImageRequestInfo) : ImageHandlerExecutionResult :=
  if strict_eq_str (get error "code") "TooLargeImageException"
  then getRedirectResponse env info
  else if fallbackConfigured
  then match getObject world fallbackRequest with
       | Normal object =>
           match Body object with
           | Some bytes => fallbackResponse error isAlb object bytes
           | None => structuredError error isAlb
           end
       | Throw _ => structuredError error isAlb
       end
  else structuredError error isAlb.

(** The calls the [catch] block adds: the fetch, when the second tier
    is reached and configured. *)
Definition catchCalls (error : thrown) : list Call :=
  match propertyOf error "code" with
  | None => []
  | Some code =>
      if strict_eq_str code "TooLargeImageException" then []
      else if fallbackConfigured then [CallGetObject fallbackRequest]
      else []
  end.

(** How the structured-error tier ends for any caught value. *)
Definition structuredOutcome (error : thrown) (isAlb : value)
  : completion ImageHandlerExecutionResult :=
  match propertyOf error "status" with
  | None => Throw TypeError
  | Some status =>
      if truthy status then
        match error with
        | Thrown v =>
            Normal {| statusCode := status;
                      isBase64Encoded := false;
                      headers := getResponseHeaders env true isAlb;
                      body := JSON.stringify v |}
        | ThrownCyclic _ => Throw TypeError
        end
      else Normal (structuredError [] isAlb)
  end.

(** How the [catch] block ends for any caught value. *)
Definition catchOutcome (isAlb : value) (error : thrown)
    (info : ImageRequestInfo) : completion ImageHandlerExecutionResult :=
  match propertyOf error "code" with
  | None => Throw TypeError
  | Some code =>
      if strict_eq_str code "TooLargeImageException"
      then Normal (getRedirectResponse env info)
      else if fallbackConfigured
      then match getObject world fallbackRequest with
           | Normal object =>
               match Body object with
               | Some bytes =>
                   let status := default VUndefined (propertyOf error "status") in
                   Normal {| statusCode :=
                               if truthy status then status
                               else StatusCodes.INTERNAL_SERVER_ERROR;
                             isBase64Encoded := true;
                             headers := fallbackHeaders object isAlb;
                             body := VStr (Base64.encode bytes) |}
               | None => structuredOutcome error isAlb
               end
           | Throw _ => structuredOutcome error isAlb
           end
      else structuredOutcome error isAlb
  end.

(** The calls of the header builder the [catch] block makes. *)
Definition catchHeaderCalls (isAlb : value) (error : thrown)
  : list (bool * value) :=
  match propertyOf error "code" with
  | None => []
  | Some code =>
      if strict_eq_str code "TooLargeImageException" then []
      else if fallbackConfigured
      then match getObject world fallbackRequest with
           | Normal object =>
               match Body object with
               | Some _ => [(false, isAlb)]
               | None => [(false, isAlb); (true, isAlb)]
               end
           | Throw _ => [(true, isAlb)]
           end
      else [(true, isAlb)]
  end.

(** A response whose status is set and whose body is a string; the body
    is [null] in the redirect only: status 301, not encoded, [Location]
    the single header. *)
Definition wellFormed (response : ImageHandlerExecutionResult) : Prop :=
  truthy (statusCode response) = true
  /\ ((exists text, body response = VStr text)
      \/ (body response = VNull
          /\ statusCode response = VNum 301
          /\ isBase64Encoded response = false
          /\ exists location,
               headers response = {[ "Location" := VStr location ]})).

(** The four headers a successful response takes from the request. *)
Definition requestHeaders (info : ImageRequestInfo) : Headers :=
  <["Content-Type" := Info.contentType info]>
    (<["Expires" := Info.expires info]>
       (<["Last-Modified" := Info.lastModified info]>
          {[ "Cache-Control" := Info.cacheControl info ]})).

(** The default fallback is switched off, lacks its bucket or key, or the
    fetch does not deliver the object's bytes. *)
Definition fallbackUnavailable : Prop :=
  ENABLE_DEFAULT_FALLBACK_IMAGE env <> Some "Yes"
  \/ isNullOrWhiteSpace (DEFAULT_FALLBACK_IMAGE_BUCKET env) = true
  \/ isNullOrWhiteSpace (DEFAULT_FALLBACK_IMAGE_KEY env) = true
  \/ (exists e, getObject world fallbackRequest = Throw e)
  \/ (exists object,
        getObject world fallbackRequest = Normal object
        /\ Body object = None).

(** A caught value no property can be read of. *)
Definition nullish (error : thrown) : Prop :=
  error = Thrown VUndefined \/ error = Thrown VNull.

(** The caught values on which the [catch] block itself throws: those no
    property can be read of, at [error.code]; and those [JSON.stringify]
    fails on, when they reach it: the code is not
    [TooLargeImageException], the default fallback image is not served
    and the status is truthy. *)
Definition catchThrows (error : thrown) : Prop :=
  nullish error
  \/ exists own,
       error = ThrownCyclic own
       /\ get own "code" <> VStr "TooLargeImageException"
       /\ truthy (get own "status") = true
       /\ fallbackUnavailable.

(** The members of the fixed body of an error without a usable status. *)
Definition internalError : list (string * JSON.json) :=
  [("message", JSON.JStr "Internal error. Please contact the system administrator.");
   ("code", JSON.JStr "InternalError");
   ("status", JSON.JNum 500)].

(** Where the headers of a response come from, each origin pinned to
    what the invocation itself obtained: the redirect for the request
    description the handler holds; the builder's output for the flag of
    the event, overlaid with the headers of the request description the
    set-up returned, after the one builder call
    [getResponseHeaders(false, flag)]; the builder's output for that flag
    overlaid with the headers of the object the fetch returned; or the
    builder's error headers for that flag. *)
Definition headersBuiltFor (event : ImageHandlerEvent) (h : Headers) : Prop :=
  h = headers (getRedirectResponse env (imageRequestInfo (fst (invoke event))))
  \/ (exists info payload,
        setup world event = Normal info
        /\ process world info = Normal payload
        /\ headerLog event = [(false, isAlb_of event)]
        /\ h = successHeaders info (isAlb_of event))
  \/ (exists object,
        getObject world fallbackRequest = Normal object
        /\ h = fallbackHeaders object (isAlb_of event))
  \/ h = getResponseHeaders env true (isAlb_of event).


End Handler.


(** * The earlier entry point (index.js)

    The handler the typed one grew out of.  It has two tiers only: the
    redirect, asked for by the edit [noDimPath], and an error response
    that passes the error's status on as it is. *)

Module Legacy.

(** The response object.  The redirect is built without [body] and
    without [isBase64Encoded]: a property that is left out is [None]. *)
Record Response : Type := {
  statusCode : value;
  headers : Headers;
  body : option value;
  isBase64Encoded : option bool
}.

(** [request.edits.noDimPath]: reading a property off missing edits
    raises a [TypeError]; a property the edits do not have is
    [undefined]. *)
Definition noDimPath_of (edits : option (list (string * value))) : M value :=
  match edits with
  | Some props => ret (default VUndefined (assoc "noDimPath" props))
  | None => throw TypeError
  end.

Section Handler.

Variable env : ProcessEnv.
Variable world : Collaborators.

(** [getResponseHeaders(isErr)]; the handler calls it with no argument
    ([undefined]) or with [true]. *)
Definition getResponseHeaders (isErr : value) : Headers :=
  let corsEnabled :=
    match CORS_ENABLED env with
    | Some s => String.eqb s "Yes"
    | None => false
    end in
  let headers : Headers :=
    <["Content-Type" := VStr "image"]>
      (<["Access-Control-Allow-Credentials" := VBool true]>
         (<["Access-Control-Allow-Headers" := VStr "Content-Type, Authorization"]>
            (<["Access-Control-Allow-Methods" := VStr "GET"]> ∅))) in
  let headers :=
    if corsEnabled
    then <["Access-Control-Allow-Origin" := of_option (CORS_ORIGIN env)]> headers
    else headers in
  let headers :=
    if truthy isErr
    then <["Content-Type" := VStr "application/json"]> headers
    else headers in
  headers.

(** The [catch (err)] block.  Reading [err.status] throws when what was
    caught is [undefined] or [null], and [JSON.stringify(err)] throws on
    an object it cannot serialise; nothing catches either. *)
Definition catchBlock (err : thrown) : M Response :=
  status <- property err "status" ;;
  let headers := getResponseHeaders (VBool true) in
  body <- stringifyThrown err ;;
  ret {| statusCode := status;
         headers := headers;
         body := Some body;
         isBase64Encoded := Some false |}.


(** How the [catch] block ends for any caught value. *)
Definition catchOutcome (err : thrown) : completion Response :=
  match propertyOf err "status", err with
  | None, _ => Throw TypeError
  | Some _, ThrownCyclic _ => Throw TypeError
  | Some status, Thrown v =>
      Normal {| statusCode := status;
                headers := getResponseHeaders (VBool true);
                body := Some (JSON.stringify v);
                isBase64Encoded := Some false |}
  end.

(** The [try] block of [exports.handler]. *)
Definition tryBlock (event : ImageHandlerEvent) : M Response :=
  request <- await (CallSetup event) (setup world event) ;;
  noDimPath <- noDimPath_of (Info.edits request) ;;
  if truthy noDimPath
  then
    ret {| statusCode := VNum 301;
           headers :=
             {[ "Location" :=
                  VStr (interpolate (HIGHRES_CDN_URL env) +:+ "/" +:+
                        interpolate (Info.key request)) ]};
           body := None;
           isBase64Encoded := None |}
  else
    processedRequest <- await (CallProcess request) (process world request) ;;
    ret {| statusCode := VNum 200;
           headers := getResponseHeaders VUndefined;
           body := Some (VStr processedRequest);
           isBase64Encoded := Some true |}.

(** [exports.handler]. *)
Definition handler (event : ImageHandlerEvent) : M Response :=
  try_catch (tryBlock event) catchBlock.

(** The promise of one invocation, and the calls it made. *)
Definition settled (event : ImageHandlerEvent) : completion Response :=
  snd (handler event initial).

Definition trace (event : ImageHandlerEvent) : list Call :=
  calls (fst (handler event initial)).

(** The [try] block of that invocation on its own. *)
Definition attempt (event : ImageHandlerEvent) : Frame * completion Response :=
  tryBlock event initial.

End Handler.

End Legacy.


(** * Scenarios *)

Module Scenario.

(** No CORS, no default fallback image. *)
Definition env_plain : ProcessEnv :=
  {| CORS_ENABLED := None;
     CORS_ORIGIN := None;
     HIGHRES_CDN_URL := Some "https://cdn.example.com";
     ENABLE_DEFAULT_FALLBACK_IMAGE := Some "No";
     DEFAULT_FALLBACK_IMAGE_BUCKET := None;
     DEFAULT_FALLBACK_IMAGE_KEY := None |}.

(** CORS for every origin and a default fallback image. *)
Definition env_fallback : ProcessEnv :=
  {| CORS_ENABLED := Some "Yes";
     CORS_ORIGIN := Some "*";
     HIGHRES_CDN_URL := Some "https://cdn.example.com";
     ENABLE_DEFAULT_FALLBACK_IMAGE := Some "Yes";
     DEFAULT_FALLBACK_IMAGE_BUCKET := Some "fallback-bucket";
     DEFAULT_FALLBACK_IMAGE_KEY := Some "fallback.png" |}.

(** An event from the API gateway: no request context. *)
Definition event_api : ImageHandlerEvent :=
  {| Event.path := VStr "/cat.jpg";
     Event.queryStringParameters := VNull;
     Event.requestContext := VUndefined;
     Event.headers := VUndefined |}.

(** An event from a load balancer. *)
Definition event_alb : ImageHandlerEvent :=
  {| Event.path := VStr "/fit-in/100x100/big.png";
     Event.queryStringParameters := VNull;
     Event.requestContext :=
       VObj [("elb", VObj [("targetGroupArn", VStr "arn:aws:elasticloadbalancing")])];
     Event.headers := VUndefined |}.

Definition info_cat : ImageRequestInfo :=
  {| Info.key := Some "cat.jpg";
     Info.edits := Some [];
     Info.contentType := VStr "image/jpeg";
     Info.expires := VUndefined;
     Info.lastModified := VUndefined;
     Info.cacheControl := VStr "max-age=31536000,public";
     Info.headers := None |}.

Definition info_resize : ImageRequestInfo :=
  {| Info.key := Some "big.png";
     Info.edits := Some [("resize", VObj [("width", VNum 100); ("height", VNum 100)])];
     Info.contentType := VStr "image/png";
     Info.expires := VUndefined;
     Info.lastModified := VStr "Wed, 21 Oct 2015 07:28:00 GMT";
     Info.cacheControl := VStr "max-age=31536000,public";
     Info.headers := Some {[ "Cache-Control" := VStr "no-cache" ]} |}.

Definition bad_request : ErrorObject :=
  [("status", VNum 400); ("code", VStr "BadRequest");
   ("message", VStr "invalid edits")].



Definition no_such_key : ErrorObject :=
  [("message", VStr "The specified key does not exist.");
   ("code", VStr "NoSuchKey"); ("statusCode", VNum 404)].

(** The three bytes [Man]. *)
Definition object_png : GetObjectOutput :=
  {| Body := Some [Byte.x4d; Byte.x61; Byte.x6e];
     ContentType := VStr "image/png";
     LastModified := VStr "Thu, 01 Jan 2015 00:00:00 GMT" |}.

(** Collaborators that answer every call the same way. *)
Definition world_of (s : completion ImageRequestInfo) (p : completion string)
    (o : completion GetObjectOutput) : Collaborators :=
  {| setup := fun _ => s; process := fun _ => p; getObject := fun _ => o |}.

Definition world_cat : Collaborators :=
  world_of (Normal info_cat) (Normal "/9j/4AAQ") (Throw no_such_key).

Definition world_resize : Collaborators :=
  world_of (Normal info_resize) (Normal "iVBORw0KGgo=") (Throw no_such_key).





(** A set-up whose promise is rejected with [undefined]. *)
Definition world_rejects_undefined : Collaborators :=
  world_of (Throw (Thrown VUndefined)) (Normal "iVBORw0KGgo=")
           (Normal object_png).

(** An upstream error with a status, whose object graph has a cycle. *)
Definition upstream_error : thrown :=
  ThrownCyclic [("status", VNum 502); ("code", VStr "UpstreamError")].

Definition world_upstream_error : Collaborators :=
  world_of (Normal info_resize) (Throw upstream_error) (Throw no_such_key).

(** The frame a failed set-up leaves behind. *)
Definition after_setup (event : ImageHandlerEvent) : Frame :=
  {| imageRequestInfo := Info.empty; calls := [CallSetup event];
     headerCalls := [] |}.

(** A text with every double quote turned into a single one, to write
    JSON down legibly. *)
Fixpoint single_quoted (s : string) : string :=
  match s with
  | EmptyString => EmptyString
  | String c s' =>
      String (if Ascii.eqb c JSON.dquote then "'"%char else c) (single_quoted s')
  end.

End Scenario.

Import Scenario.

(** Further requests and collaborators. *)
Module Cases.

(** A request description that came back without edits. *)
Definition info_without_edits : ImageRequestInfo :=
  {| Info.key := Some "cat.jpg";
     Info.edits := None;
     Info.contentType := VStr "image/jpeg";
     Info.expires := VUndefined;
     Info.lastModified := VUndefined;
     Info.cacheControl := VUndefined;
     Info.headers := None |}.

(** No edits and the empty key. *)
Definition info_empty_key : ImageRequestInfo :=
  {| Info.key := Some EmptyString;
     Info.edits := Some [];
     Info.contentType := VStr "image/jpeg";
     Info.expires := VUndefined;
     Info.lastModified := VUndefined;
     Info.cacheControl := VUndefined;
     Info.headers := None |}.

(** The edit that asks the earlier handler for the original image. *)
Definition info_no_dim_path : ImageRequestInfo :=
  {| Info.key := Some "cat.jpg";
     Info.edits := Some [("noDimPath", VBool true)];
     Info.contentType := VStr "image/jpeg";
     Info.expires := VUndefined;
     Info.lastModified := VUndefined;
     Info.cacheControl := VUndefined;
     Info.headers := None |}.

Definition world_without_edits : Collaborators :=
  world_of (Normal info_without_edits) (Normal "/9j/4AAQ") (Normal object_png).

Definition world_empty_key : Collaborators :=
  world_of (Normal info_empty_key) (Normal "/9j/4AAQ") (Throw no_such_key).

Definition world_no_dim_path : Collaborators :=
  world_of (Normal info_no_dim_path) (Normal "/9j/4AAQ") (Throw no_such_key).

Definition world_process_fails : Collaborators :=
  world_of (Normal info_resize) (Throw bad_request) (Throw no_such_key).

End Cases.

Import Cases.

(** * Properties *)

(** ** Values and JSON *)

Lemma of_value_undefined (v : value) :
  JSON.of_value v = None <-> v = VUndefined.
Proof. destruct v; simpl; split; intros H; congruence. Qed.

Lemma of_value_object (props : list (string * value)) :
  JSON.of_value (VObj props) = Some (JSON.JObj (JSON.members_of props)).
Proof. reflexivity. Qed.

(** Stringifying an object gives the text of its members. *)
Lemma stringify_object (props : list (string * value)) :
  JSON.stringify (VObj props)
  = VStr (JSON.render (JSON.JObj (JSON.members_of props))).
Proof. unfold JSON.stringify. rewrite of_value_object. reflexivity. Qed.

(** A property that is not [undefined] is written, with its own JSON form. *)
Lemma members_of_defined (error : ErrorObject) (k : string) :
  get error k <> VUndefined ->
  assoc k (JSON.members_of error) = JSON.of_value (get error k).
Proof.
  unfold get. induction error as [|[k' x] error IH]; simpl.
  - intros H. congruence.
  - destruct (String.eqb k k') eqn:E.
    + simpl. intros H. destruct (JSON.of_value x) eqn:Ex.
      * simpl. rewrite E. reflexivity.
      * apply of_value_undefined in Ex. congruence.
    + intros H. destruct (JSON.of_value x); simpl; [rewrite E|]; auto.
Qed.

Lemma truthy_defined (v : value) : truthy v = true -> v <> VUndefined.
Proof. intros H ->. discriminate. Qed.

(** The run-time primitives on small inputs. *)
Example base64_three_bytes :
  Base64.encode [Byte.x4d; Byte.x61; Byte.x6e] = "TWFu".
Proof. reflexivity. Qed.

Example base64_padding :
  Base64.encode [Byte.x4d; Byte.x61] = "TWE="
  /\ Base64.encode [Byte.x4d] = "TQ=="
  /\ Base64.encode [] = EmptyString.
Proof. repeat split. Qed.

Example stringify_skips_undefined :
  JSON.stringify
    (VObj [("a", VNum 1); ("b", VUndefined);
           ("c", VArr [VUndefined; VNull; VBool true])])
  = VStr (JSON.render
            (JSON.JObj [("a", JSON.JNum 1);
                        ("c", JSON.JArr [JSON.JNull; JSON.JNull; JSON.JBool true])])).
Proof. reflexivity. Qed.

Example stringify_text :
  single_quoted
    (JSON.render (JSON.JObj [("n", JSON.JNum (-7)); ("s", JSON.JStr "a\b")]))
  = "{'n':-7,'s':'a\\b'}".
Proof. reflexivity. Qed.

Example quote_escapes_control_characters :
  JSON.escape (String (ascii_of_N 10) (String (ascii_of_N 1) "x")) = "\n\u0001x".
Proof. reflexivity. Qed.

Example missing_values_interpolate_as_text :
  interpolate None +:+ "/" +:+ interpolate (Some "k") = "undefined/k".
Proof. reflexivity. Qed.

(** ** The header builder *)

Section HeaderBuilder.

Variable env : ProcessEnv.

(** Only the truthiness of the origin flag matters to the builder. *)
Lemma getResponseHeaders_truthy (isError : bool) (a b : value) :
  truthy a = truthy b ->
  getResponseHeaders env isError a = getResponseHeaders env isError b.
Proof. unfold getResponseHeaders. intros ->. reflexivity. Qed.

(** The credentials header follows the origin flag, whatever the CORS
    configuration and the error flag are. *)
Lemma getResponseHeaders_credentials (isError : bool) (isAlb : value) :
  getResponseHeaders env isError isAlb !! "Access-Control-Allow-Credentials"
  = if truthy isAlb then None else Some (VBool true).
Proof.
  unfold getResponseHeaders.
  destruct isError, (truthy isAlb), (CORS_ENABLED env) as [s|];
    try destruct (String.eqb s "Yes"); simpl;
    repeat (rewrite lookup_insert_ne by discriminate);
    rewrite ?lookup_insert_eq, ?lookup_empty; reflexivity.
Qed.

(** An error response is declared as JSON. *)
Lemma getResponseHeaders_error_content_type (isAlb : value) :
  getResponseHeaders env true isAlb !! "Content-Type"
  = Some (VStr "application/json").
Proof. unfold getResponseHeaders. simpl. apply lookup_insert_eq. Qed.

(** C8. For a load-balancer origin ([isAlb] true) the header
    [Access-Control-Allow-Credentials] is absent from what
    [getResponseHeaders] returns; for any other origin ([isAlb] false) it
    is present with the value [true].  Both hold with [isError] true and
    with [isError] false. *)
Theorem credentials_header_by_origin (isError : bool) :
  getResponseHeaders env isError (VBool true)
    !! "Access-Control-Allow-Credentials" = None
  /\ getResponseHeaders env isError (VBool false)
       !! "Access-Control-Allow-Credentials" = Some (VBool true).
Proof. split; apply getResponseHeaders_credentials. Qed.

End HeaderBuilder.

(** ** The invocation *)

Create HintDb handler_ops.
#[local] Hint Unfold bind ret throw try_catch read assign await
  Object_keys toString_base64 property stringifyThrown
  callGetResponseHeaders : handler_ops.

(** Runs the monadic operations of a goal as far as they go. *)
Ltac run := autounfold with handler_ops; simpl.

Section Invocation.

Variable env : ProcessEnv.
Variable world : Collaborators.

(** *** How the [try] block ends *)

Lemma attempt_setup_throws event (error : thrown) :
  setup world event = Throw error ->
  attempt env world event
  = ({| imageRequestInfo := Info.empty; calls := [CallSetup event];
        headerCalls := [] |},
     Throw error).
Proof.
  intros H. unfold attempt, tryBlock. run.
  rewrite H. reflexivity.
Qed.

Lemma attempt_edits_missing event info :
  setup world event = Normal info ->
  Info.edits info = None ->
  attempt env world event
  = ({| imageRequestInfo := info; calls := [CallSetup event];
        headerCalls := [] |},
     Throw TypeError).
Proof.
  intros H E. unfold attempt, tryBlock. run.
  rewrite H. simpl. rewrite E. reflexivity.
Qed.

Lemma attempt_pass_through event info :
  setup world event = Normal info ->
  passThrough info = true ->
  attempt env world event
  = ({| imageRequestInfo := info; calls := [CallSetup event];
        headerCalls := [] |},
     Normal (getRedirectResponse env info)).
Proof.
  intros H G. unfold attempt, tryBlock. run.
  rewrite H. simpl. unfold passThrough in G.
  destruct (Info.edits info) as [edits|]; [|discriminate].
  simpl. rewrite G. reflexivity.
Qed.

Lemma attempt_process event info edits :
  setup world event = Normal info ->
  Info.edits info = Some edits ->
  passThrough info = false ->
  attempt env world event
  = match process world info with
    | Normal processedRequest =>
        ({| imageRequestInfo := info;
            calls := [CallSetup event; CallProcess info];
            headerCalls := [(false, isAlb_of event)] |},
         Normal {| statusCode := StatusCodes.OK;
                   isBase64Encoded := true;
                   headers := successHeaders env info (isAlb_of event);
                   body := VStr processedRequest |})
    | Throw error =>
        ({| imageRequestInfo := info;
            calls := [CallSetup event; CallProcess info];
            headerCalls := [] |},
         Throw error)
    end.
Proof.
  intros H E G. unfold attempt, tryBlock. run.
  rewrite H. simpl. unfold passThrough in G. rewrite E in *.
  simpl. rewrite G. simpl.
  destruct (process world info); reflexivity.
Qed.


(** *** The handler is the [try] block followed, on a throw, by [catch] *)

Lemma invoke_attempt event :
  invoke env world event
  = match attempt env world event with
    | (s, Normal response) => (s, Normal response)
    | (s, Throw error) => catchBlock env world (isAlb_of event) error s
    end.
Proof. reflexivity. Qed.

(** *** How the [catch] block ends *)

(** The [catch] block on any caught value: it ends as [catchOutcome]
    says, leaves [imageRequestInfo] alone, and makes the calls of
    [catchCalls] and [catchHeaderCalls]. *)
Lemma catchBlock_runs isAlb (error : thrown) s :
  catchBlock env world isAlb error s
  = ({| imageRequestInfo := imageRequestInfo s;
        calls := calls s ++ catchCalls env error;
        headerCalls := headerCalls s ++ catchHeaderCalls env world isAlb error |},
     catchOutcome env world isAlb error (imageRequestInfo s)).
Proof.
  assert (N : forall s : Frame,
    s = {| imageRequestInfo := imageRequestInfo s;
           calls := calls s ++ [];
           headerCalls := headerCalls s ++ [] |}).
  { intros [i c h]. simpl. rewrite !app_nil_r. reflexivity. }
  unfold catchBlock, catchOutcome, catchCalls, catchHeaderCalls,
    structuredErrorTier, structuredOutcome, defaultFallback, structuredError.
  fold (fallbackConfigured env) (fallbackRequest env).
  assert (C : forall own : list (string * value),
    propertyOf (ThrownCyclic own) "code" = Some (get own "code")
    /\ propertyOf (ThrownCyclic own) "status" = Some (get own "status"))
    by (intros; split; reflexivity).
  destruct error as [v|own];
    [destruct v as [| |b|n|str|items|props]|]; run;
    try (rewrite (N s) at 1; reflexivity);
    repeat match goal with
           | |- context [strict_eq_str ?a ?b] => destruct (strict_eq_str a b); run
           | |- context [fallbackConfigured env] => destruct (fallbackConfigured env); run
           | |- context [getObject world ?r] => destruct (getObject world r) as [object|e']; run
           | |- context [Body ?o] => destruct (Body o); run
           | |- context [truthy (get ?e ?k)] => destruct (truthy (get e k)); run
           end;
    try reflexivity;
    try (rewrite (N s) at 1; reflexivity);
    try (rewrite <- !app_assoc; reflexivity);
    try (rewrite ?app_nil_r; reflexivity).
Qed.

Lemma catchOutcome_object isAlb (error : ErrorObject) info :
  catchOutcome env world isAlb error info
  = Normal (catchResponse env world isAlb error info).
Proof.
  unfold catchOutcome, catchResponse, structuredOutcome, fallbackResponse,
    statusOr500, structuredError. simpl.
  destruct (strict_eq_str (get error "code") "TooLargeImageException");
    [reflexivity|].
  destruct (fallbackConfigured env);
    [destruct (getObject world (fallbackRequest env)) as [object|e'];
     [destruct (Body object)|]|];
    destruct (truthy (get error "status")); reflexivity.
Qed.


(** The promise of an invocation whose [try] block returned. *)
Lemma settled_of_return event s response :
  attempt env world event = (s, Normal response) ->
  settled env world event = Normal response.
Proof. intros H. unfold settled. rewrite invoke_attempt, H. reflexivity. Qed.

(** The promise of an invocation whose [try] block threw. *)
Lemma settled_of_thrown event s (error : thrown) :
  attempt env world event = (s, Throw error) ->
  settled env world event
  = catchOutcome env world (isAlb_of event) error (imageRequestInfo s).
Proof.
  intros H. unfold settled.
  rewrite invoke_attempt, H, catchBlock_runs. reflexivity.
Qed.


Lemma trace_of_throw event s (error : thrown) :
  attempt env world event = (s, Throw error) ->
  trace env world event = (calls s ++ catchCalls env error)%list.
Proof.
  intros H. unfold trace.
  rewrite invoke_attempt, H, catchBlock_runs. reflexivity.
Qed.

Lemma headerLog_of_throw event s (error : thrown) :
  attempt env world event = (s, Throw error) ->
  headerLog env world event
  = (headerCalls s ++ catchHeaderCalls env world (isAlb_of event) error)%list.
Proof.
  intros H. unfold headerLog.
  rewrite invoke_attempt, H, catchBlock_runs. reflexivity.
Qed.

(** *** Shape of the responses *)

Lemma wellFormed_redirect info : wellFormed (getRedirectResponse env info).
Proof.
  split; [reflexivity|]. right. repeat split. eexists. reflexivity.
Qed.

Lemma statusOr500_truthy error : truthy (statusOr500 error) = true.
Proof.
  unfold statusOr500.
  destruct (truthy (get error "status")) eqn:E; [exact E | reflexivity].
Qed.

Lemma wellFormed_structuredError error isAlb :
  wellFormed (structuredError env error isAlb).
Proof.
  unfold structuredError.
  destruct (truthy (get error "status")) eqn:E; split; simpl; auto;
    left; rewrite ?stringify_object; eauto.
Qed.

Lemma wellFormed_catchResponse isAlb error info :
  wellFormed (catchResponse env world isAlb error info).
Proof.
  unfold catchResponse.
  destruct (strict_eq_str _ _); [apply wellFormed_redirect|].
  destruct (fallbackConfigured env); [|apply wellFormed_structuredError].
  destruct (getObject world (fallbackRequest env)) as [object|e'];
    [|apply wellFormed_structuredError].
  destruct (Body object) as [bytes|]; [|apply wellFormed_structuredError].
  split; simpl; [apply statusOr500_truthy | eauto].
Qed.

(** *** The decision gate and the processed image *)

Lemma strict_eq_str_spec (v : value) (lit : string) :
  strict_eq_str v lit = true <-> v = VStr lit.
Proof.
  destruct v; simpl; try (split; intros; congruence).
  rewrite String.eqb_eq. split; intros; congruence.
Qed.

Lemma strict_eq_str_false (v : value) (lit : string) :
  v <> VStr lit -> strict_eq_str v lit = false.
Proof.
  intros H. destruct (strict_eq_str v lit) eqn:E; [|reflexivity].
  apply strict_eq_str_spec in E. contradiction.
Qed.

(** The gate opens exactly for an empty edits mapping together with a key
    other than the empty string (a missing key included). *)
Lemma passThrough_spec info :
  passThrough info = true
  <-> Info.edits info = Some [] /\ Info.key info <> Some EmptyString.
Proof.
  unfold passThrough. destruct (Info.edits info) as [[|e edits]|]; simpl.
  - destruct (Info.key info) as [k|]; simpl.
    + destruct (String.eqb_spec k EmptyString) as [->|Hk]; simpl.
      * split; [discriminate | intros [_ Hk]; congruence].
      * split; [intros _; split; congruence | reflexivity].
    + split; [split; congruence | reflexivity].
  - split; [discriminate | intros [? _]; congruence].
  - split; [discriminate | intros [? _]; congruence].
Qed.

(** C2. When the set-up returns a request description whose edits mapping
    is empty and whose key is not empty, the handler does not call the
    image processing and returns status 301, [isBase64Encoded] false, a
    null body and the single header [Location], the high-resolution CDN
    base followed by a slash and the key. *)
Theorem no_edits_redirect event info key :
  setup world event = Normal info ->
  Info.edits info = Some [] ->
  Info.key info = Some key ->
  key <> EmptyString ->
  settled env world event
  = Normal {| statusCode := VNum 301;
              isBase64Encoded := false;
              headers :=
                {[ "Location" :=
                     VStr (interpolate (HIGHRES_CDN_URL env) +:+ "/" +:+ key) ]};
              body := VNull |}
  /\ trace env world event = [CallSetup event].
Proof.
  intros H E K Hk.
  assert (G : passThrough info = true).
  { apply passThrough_spec. split; [exact E | congruence]. }
  pose proof (attempt_pass_through _ _ H G) as A.
  split.
  - rewrite (settled_of_return _ _ _ A).
    unfold getRedirectResponse. rewrite K. reflexivity.
  - unfold trace. rewrite invoke_attempt, A. reflexivity.
Qed.

(** The successive assignments of [tryBlock] amount to an ordered merge:
    custom headers over the request's four headers over the builder's. *)
Lemma successHeaders_merge info isAlb :
  successHeaders env info isAlb
  = default ∅ (Info.headers info)
      ∪ (requestHeaders info ∪ getResponseHeaders env false isAlb).
Proof.
  unfold successHeaders, requestHeaders.
  set (base := getResponseHeaders env false isAlb).
  assert (E :
    <["Cache-Control" := Info.cacheControl info]>
      (<["Last-Modified" := Info.lastModified info]>
         (<["Expires" := Info.expires info]>
            (<["Content-Type" := Info.contentType info]> base)))
    = <["Content-Type" := Info.contentType info]>
        (<["Expires" := Info.expires info]>
           (<["Last-Modified" := Info.lastModified info]>
              {[ "Cache-Control" := Info.cacheControl info ]})) ∪ base).
  { apply map_eq. intros name.
    rewrite lookup_union.
    repeat rewrite lookup_insert. rewrite lookup_singleton.
    repeat case_decide; subst; try discriminate; simpl;
      try reflexivity;
      match goal with |- context [ _ ∪ ?o ] => destruct o end; reflexivity. }
  rewrite E. destruct (Info.headers info) as [custom|]; simpl.
  - reflexivity.
  - rewrite (left_id_L ∅ (∪)). reflexivity.
Qed.

(** C3. When the image processing is reached and succeeds with payload
    [payload], the result has status 200, [isBase64Encoded] true, the
    payload as body, and as headers the non-error output of the header
    builder overlaid with [Content-Type], [Expires], [Last-Modified] and
    [Cache-Control] from the request description, overlaid in turn by the
    request's custom headers when it has any: a header is looked up in the
    custom headers first, then among those four, then in the builder's. *)
Theorem processed_image_response event info edits payload :
  setup world event = Normal info ->
  Info.edits info = Some edits ->
  edits <> [] \/ Info.key info = Some EmptyString ->
  process world info = Normal payload ->
  let builder := getResponseHeaders env false (isAlb_of event) in
  let custom := default ∅ (Info.headers info) in
  exists response,
    settled env world event = Normal response
    /\ response
       = {| statusCode := VNum 200;
            isBase64Encoded := true;
            headers := custom ∪ (requestHeaders info ∪ builder);
            body := VStr payload |}
    /\ forall name,
         headers response !! name
         = match custom !! name with
           | Some v => Some v
           | None =>
               match requestHeaders info !! name with
               | Some v => Some v
               | None => builder !! name
               end
           end.
Proof.
  intros H E Hgate P builder custom.
  assert (G : passThrough info = false).
  { destruct (passThrough info) eqn:G; [|reflexivity].
    apply passThrough_spec in G as [G1 G2].
    destruct Hgate; congruence. }
  pose proof (attempt_process _ _ _ H E G) as A. rewrite P in A.
  eexists. split; [exact (settled_of_return _ _ _ A)|].
  rewrite successHeaders_merge. split; [reflexivity|].
  intros name. cbn [headers]. fold builder custom.
  rewrite !lookup_union.
  destruct (custom !! name), (requestHeaders info !! name),
    (builder !! name); reflexivity.
Qed.

(** *** The redirect tier *)




(** *** The default-fallback tier *)

Lemma fallbackConfigured_spec :
  fallbackConfigured env = true
  <-> ENABLE_DEFAULT_FALLBACK_IMAGE env = Some "Yes"
      /\ isNullOrWhiteSpace (DEFAULT_FALLBACK_IMAGE_BUCKET env) = false
      /\ isNullOrWhiteSpace (DEFAULT_FALLBACK_IMAGE_KEY env) = false.
Proof.
  unfold fallbackConfigured.
  rewrite !andb_true_iff, !negb_true_iff, strict_eq_str_spec.
  destruct (ENABLE_DEFAULT_FALLBACK_IMAGE env) as [enabled|]; simpl;
    intuition congruence.
Qed.

(** A bucket or key passes the helper's test exactly when it is set, is
    not the empty string and is not made of white space only. *)
Lemma isNullOrWhiteSpace_false (str : option string) :
  isNullOrWhiteSpace str = false
  <-> exists s, str = Some s /\ s <> EmptyString /\ all_white_space s = false.
Proof.
  destruct str as [s|]; simpl.
  - split.
    + intros H. exists s. repeat split; [|exact H].
      intros ->. discriminate.
    + intros (s' & [= <-] & _ & H). exact H.
  - split; [discriminate | intros (s & H & _); discriminate].
Qed.

Lemma catchResponse_served isAlb error info object bytes :
  get error "code" <> VStr "TooLargeImageException" ->
  fallbackConfigured env = true ->
  getObject world (fallbackRequest env) = Normal object ->
  Body object = Some bytes ->
  catchResponse env world isAlb error info = fallbackResponse env error isAlb object bytes.
Proof.
  intros C F O B. unfold catchResponse.
  rewrite (strict_eq_str_false _ _ C), F, O, B. reflexivity.
Qed.

Lemma catchResponse_unavailable isAlb error info :
  get error "code" <> VStr "TooLargeImageException" ->
  fallbackUnavailable env world ->
  catchResponse env world isAlb error info = structuredError env error isAlb.
Proof.
  intros C U. unfold catchResponse.
  rewrite (strict_eq_str_false _ _ C).
  destruct (fallbackConfigured env) eqn:F; [|reflexivity].
  apply fallbackConfigured_spec in F as (F1 & F2 & F3).
  destruct U as [U|[U|[U|[[e U]|(object & U & B)]]]];
    try congruence; rewrite U; [reflexivity|].
  rewrite B. reflexivity.
Qed.


(** *** The structured error *)

Lemma structuredError_body error isAlb :
  structuredError env error isAlb
  = {| statusCode := statusOr500 error;
       isBase64Encoded := false;
       headers := getResponseHeaders env true isAlb;
       body :=
         VStr (JSON.render
                 (JSON.JObj (if truthy (get error "status")
                             then JSON.members_of error
                             else internalError))) |}.
Proof.
  unfold structuredError, statusOr500.
  destruct (truthy (get error "status")); rewrite stringify_object;
    reflexivity.
Qed.


(** *** A failed set-up *)


(** *** The origin flag *)

Lemma assoc_is_Some {A : Type} (k : string) (ps : list (string * A)) :
  is_Some (assoc k ps) <-> In k (keys ps).
Proof.
  induction ps as [|[k' x] ps IH]; simpl.
  - split; [intros [? [=]] | tauto].
  - destruct (String.eqb_spec k k') as [->|Hk].
    + split; eauto.
    + rewrite IH. split; [tauto | intros [?|?]; congruence || assumption].
Qed.

(** The flag is truthy exactly for a request context that is an object
    with an own property [elb], whatever that property holds. *)
Lemma isAlb_of_spec event :
  truthy (isAlb_of event) = true
  <-> exists props,
        Event.requestContext event = VObj props /\ In "elb" (keys props).
Proof.
  unfold isAlb_of, and_then.
  destruct (truthy (Event.requestContext event)) eqn:T.
  - destruct (Event.requestContext event) as [| |b|n|str|items|props];
      simpl in *; try (split; [discriminate | intros (? & [=] & _)]).
    destruct (assoc "elb" props) as [v|] eqn:E; split;
      try discriminate; try reflexivity.
    + intros _. exists props. split; [reflexivity|].
      apply assoc_is_Some. rewrite E. eauto.
    + intros (props' & [= <-] & HI).
      apply assoc_is_Some in HI. rewrite E in HI. destruct HI as [? [=]].
  - rewrite T. split; [discriminate|].
    intros (props & E & _). rewrite E in T. discriminate.
Qed.

Lemma catchOutcome_truthy a b (error : thrown) info :
  truthy a = truthy b ->
  catchOutcome env world a error info = catchOutcome env world b error info.
Proof.
  intros T. unfold catchOutcome, structuredOutcome, fallbackHeaders,
    structuredError.
  rewrite (getResponseHeaders_truthy env false a b T),
          (getResponseHeaders_truthy env true a b T).
  reflexivity.
Qed.

(** The response, the calls and the builder calls of an invocation, path
    by path. *)
Lemma settled_cases event :
  settled env world event
  = match setup world event with
    | Throw error =>
        catchOutcome env world (isAlb_of event) error Info.empty
    | Normal info =>
        match Info.edits info with
        | None => catchOutcome env world (isAlb_of event) TypeError info
        | Some _ =>
            if passThrough info then Normal (getRedirectResponse env info)
            else match process world info with
                 | Normal payload =>
                     Normal {| statusCode := StatusCodes.OK;
                               isBase64Encoded := true;
                               headers := successHeaders env info (isAlb_of event);
                               body := VStr payload |}
                 | Throw error =>
                     catchOutcome env world (isAlb_of event) error info
                 end
        end
    end.
Proof.
  destruct (setup world event) as [info|error] eqn:S.
  - destruct (Info.edits info) as [edits|] eqn:E.
    + destruct (passThrough info) eqn:G.
      * exact (settled_of_return _ _ _ (attempt_pass_through _ _ S G)).
      * pose proof (attempt_process _ _ _ S E G) as A.
        destruct (process world info).
        -- exact (settled_of_return _ _ _ A).
        -- exact (settled_of_thrown _ _ _ A).
    + exact (settled_of_thrown _ _ _ (attempt_edits_missing _ _ S E)).
  - exact (settled_of_thrown _ _ _ (attempt_setup_throws _ _ S)).
Qed.

Lemma trace_cases event :
  trace env world event
  = match setup world event with
    | Throw error => CallSetup event :: catchCalls env error
    | Normal info =>
        match Info.edits info with
        | None => CallSetup event :: catchCalls env TypeError
        | Some _ =>
            if passThrough info then [CallSetup event]
            else match process world info with
                 | Normal _ => [CallSetup event; CallProcess info]
                 | Throw error =>
                     CallSetup event :: CallProcess info :: catchCalls env error
                 end
        end
    end.
Proof.
  destruct (setup world event) as [info|error] eqn:S.
  - destruct (Info.edits info) as [edits|] eqn:E.
    + destruct (passThrough info) eqn:G.
      * unfold trace.
        rewrite invoke_attempt, (attempt_pass_through _ _ S G). reflexivity.
      * pose proof (attempt_process _ _ _ S E G) as A.
        destruct (process world info).
        -- unfold trace. rewrite invoke_attempt, A. reflexivity.
        -- rewrite (trace_of_throw _ _ _ A). reflexivity.
    + rewrite (trace_of_throw _ _ _ (attempt_edits_missing _ _ S E)).
      reflexivity.
  - rewrite (trace_of_throw _ _ _ (attempt_setup_throws _ _ S)).
    reflexivity.
Qed.

Lemma headerLog_cases event :
  headerLog env world event
  = match setup world event with
    | Throw error => catchHeaderCalls env world (isAlb_of event) error
    | Normal info =>
        match Info.edits info with
        | None => catchHeaderCalls env world (isAlb_of event) TypeError
        | Some _ =>
            if passThrough info then []
            else match process world info with
                 | Normal _ => [(false, isAlb_of event)]
                 | Throw error =>
                     catchHeaderCalls env world (isAlb_of event) error
                 end
        end
    end.
Proof.
  destruct (setup world event) as [info|error] eqn:S.
  - destruct (Info.edits info) as [edits|] eqn:E.
    + destruct (passThrough info) eqn:G.
      * unfold headerLog.
        rewrite invoke_attempt, (attempt_pass_through _ _ S G). reflexivity.
      * pose proof (attempt_process _ _ _ S E G) as A.
        destruct (process world info).
        -- unfold headerLog. rewrite invoke_attempt, A. reflexivity.
        -- rewrite (headerLog_of_throw _ _ _ A). reflexivity.
    + rewrite (headerLog_of_throw _ _ _ (attempt_edits_missing _ _ S E)).
      reflexivity.
  - rewrite (headerLog_of_throw _ _ _ (attempt_setup_throws _ _ S)).
    reflexivity.
Qed.

(** Every builder call of the [catch] block carries the flag it was
    given. *)
Lemma catchHeaderCalls_flag isAlb (error : thrown) :
  Forall (fun call => snd call = isAlb)
         (catchHeaderCalls env world isAlb error).
Proof.
  unfold catchHeaderCalls.
  destruct (propertyOf error "code") as [code|]; [|constructor].
  destruct (strict_eq_str _ _); [constructor|].
  destruct (fallbackConfigured env);
    [destruct (getObject world (fallbackRequest env)) as [object|e'];
     [destruct (Body object)|]|];
    repeat constructor.
Qed.

(** Where the headers of a response of the [catch] block come from. *)
Lemma catchOutcome_headers isAlb (error : thrown) info response :
  catchOutcome env world isAlb error info = Normal response ->
  headers response = headers (getRedirectResponse env info)
  \/ (exists object,
        getObject world (fallbackRequest env) = Normal object
        /\ headers response = fallbackHeaders env object isAlb)
  \/ headers response = getResponseHeaders env true isAlb.
Proof.
  assert (S : forall response,
    structuredOutcome env error isAlb = Normal response ->
    headers response = getResponseHeaders env true isAlb).
  { intros r. unfold structuredOutcome, structuredError.
    destruct (propertyOf error "status") as [status|]; [|discriminate].
    destruct (truthy status); [destruct error|]; simpl;
      try discriminate; intros [= <-]; reflexivity. }
  unfold catchOutcome.
  destruct (propertyOf error "code") as [code|]; [|discriminate].
  destruct (strict_eq_str _ _); [intros [= <-]; left; reflexivity|].
  destruct (fallbackConfigured env); [|intros H; right; right; apply S, H].
  destruct (getObject world (fallbackRequest env)) as [object|e'];
    [|intros H; right; right; apply S, H].
  destruct (Body object); [|intros H; right; right; apply S, H].
  intros [= <-]. right. left. exists object. split; reflexivity.
Qed.

(** C9. An event counts as coming from a load balancer exactly when its
    [requestContext] is present and has an own property named [elb],
    whatever the value of that property.  The handler reads nothing else
    of the event to tell the two protocols apart: two events that agree
    on that test and on what the set-up answers get the same outcome.
    The flag is computed once, from the event alone, and it is the second
    argument of every call of the header builder the invocation makes;
    the headers of the response are the redirect's, or what the builder
    returned for that flag, overlaid with the headers of the request
    description the set-up returned (after the single call
    [getResponseHeaders(false, flag)]) or of the fetched fallback
    object. *)
Theorem origin_flag :
  (forall event,
     truthy (isAlb_of event) = true
     <-> exists props,
           Event.requestContext event = VObj props /\ In "elb" (keys props))
  /\ (forall event1 event2,
        truthy (isAlb_of event1) = truthy (isAlb_of event2) ->
        setup world event1 = setup world event2 ->
        settled env world event1 = settled env world event2)
  /\ (forall event,
        Forall (fun call => snd call = isAlb_of event)
               (headerLog env world event))
  /\ (forall event response,
        settled env world event = Normal response ->
        headersBuiltFor env world event (headers response)).
Proof.
  split; [exact isAlb_of_spec|]. split; [|split].
  - intros e1 e2 T H.
    rewrite (settled_cases e1), (settled_cases e2), <- H.
    unfold successHeaders.
    rewrite (getResponseHeaders_truthy env false _ _ T).
    destruct (setup world e1) as [info|error];
      [|apply catchOutcome_truthy, T].
    destruct (Info.edits info); [|apply catchOutcome_truthy, T].
    destruct (passThrough info); [reflexivity|].
    destruct (process world info); [reflexivity|].
    apply catchOutcome_truthy, T.
  - intros event. rewrite headerLog_cases.
    destruct (setup world event) as [info|error];
      [|apply catchHeaderCalls_flag].
    destruct (Info.edits info); [|apply catchHeaderCalls_flag].
    destruct (passThrough info); [constructor|].
    destruct (process world info);
      [repeat constructor|apply catchHeaderCalls_flag].
  - intros event response R. unfold headersBuiltFor.
    assert (K : forall (error : thrown) s,
      attempt env world event = (s, Throw error) ->
      headers response
      = headers (getRedirectResponse env (imageRequestInfo (fst (invoke env world event))))
      \/ (exists object,
            getObject world (fallbackRequest env) = Normal object
            /\ headers response = fallbackHeaders env object (isAlb_of event))
      \/ headers response = getResponseHeaders env true (isAlb_of event)).
    { intros error s A. rewrite (settled_of_thrown _ _ _ A) in R.
      rewrite invoke_attempt, A, catchBlock_runs. cbn [fst imageRequestInfo].
      exact (catchOutcome_headers _ _ _ _ R). }
    destruct (attempt env world event) as [s [r|error]] eqn:A.
    + rewrite (settled_of_return _ _ _ A) in R. injection R as <-.
      rewrite invoke_attempt, A. cbn [fst].
      revert A. destruct (setup world event) as [info|e] eqn:H.
      * destruct (Info.edits info) as [edits|] eqn:E.
        -- destruct (passThrough info) eqn:G.
           ++ rewrite (attempt_pass_through _ _ H G). intros [= <- <-].
              left. reflexivity.
           ++ pose proof (headerLog_cases event) as L.
              rewrite H, E, G in L.
              rewrite (attempt_process _ _ _ H E G).
              destruct (process world info) as [payload|e] eqn:P;
                intros [= <- <-].
              right. left. exists info, payload. auto.
        -- rewrite (attempt_edits_missing _ _ H E). discriminate.
      * rewrite (attempt_setup_throws _ _ H). discriminate.
    + destruct (K error s eq_refl) as [K1|[K2|K3]]; auto.
Qed.

(** *** A status that is there but falsy *)



Lemma statusOr500_falsy error :
  truthy (get error "status") = false -> statusOr500 error = VNum 500.
Proof. unfold statusOr500. intros ->. reflexivity. Qed.

Lemma structuredError_falsy error isAlb :
  truthy (get error "status") = false ->
  structuredError env error isAlb
  = {| statusCode := VNum 500;
       isBase64Encoded := false;
       headers := getResponseHeaders env true isAlb;
       body := VStr (JSON.render (JSON.JObj internalError)) |}.
Proof.
  intros T. rewrite structuredError_body, (statusOr500_falsy _ T), T.
  reflexivity.
Qed.


(** *** Every outcome of the collaborators *)

(** The default fallback image is served, or it is unavailable; not
    both. *)
Lemma fallback_served_or_unavailable :
  (exists object bytes,
     fallbackConfigured env = true
     /\ getObject world (fallbackRequest env) = Normal object
     /\ Body object = Some bytes)
  \/ (fallbackUnavailable env world
      /\ (if fallbackConfigured env
          then match getObject world (fallbackRequest env) with
               | Normal object => Body object = None
               | Throw _ => True
               end
          else True)).
Proof.
  unfold fallbackUnavailable, fallbackConfigured.
  destruct (ENABLE_DEFAULT_FALLBACK_IMAGE env) as [enabled|];
    [|right; split; [left; discriminate | exact I]].
  simpl strict_eq_str.
  destruct (String.eqb_spec enabled "Yes") as [->|N];
    [|right; split; [left; congruence | exact I]].
  destruct (isNullOrWhiteSpace (DEFAULT_FALLBACK_IMAGE_BUCKET env));
    [right; split; [auto | exact I]|].
  destruct (isNullOrWhiteSpace (DEFAULT_FALLBACK_IMAGE_KEY env));
    [right; split; [auto | exact I]|].
  simpl.
  destruct (getObject world (fallbackRequest env)) as [object|e'];
    [|right; split; [do 3 right; left; eauto | exact I]].
  destruct (Body object) as [bytes|] eqn:B;
    [left; eauto | right; split; [do 4 right; eauto | reflexivity]].
Qed.

Lemma served_not_unavailable object bytes :
  fallbackConfigured env = true ->
  getObject world (fallbackRequest env) = Normal object ->
  Body object = Some bytes ->
  ~ fallbackUnavailable env world.
Proof.
  unfold fallbackUnavailable, fallbackConfigured.
  rewrite !andb_true_iff, !negb_true_iff.
  intros [[F1 F2] F3] O B U.
  destruct (ENABLE_DEFAULT_FALLBACK_IMAGE env) as [enabled|];
    [|discriminate].
  simpl in F1. apply String.eqb_eq in F1 as ->.
  destruct U as [U|[U|[U|[[e U]|(object' & U & B')]]]]; congruence.
Qed.

(** How the [catch] block ends: it throws a [TypeError] on the values of
    [catchThrows], and on every other value it returns a well-formed
    response. *)
Lemma catchOutcome_cases isAlb (error : thrown) info :
  (catchThrows env world error
   /\ catchOutcome env world isAlb error info = Throw TypeError)
  \/ (~ catchThrows env world error
      /\ exists response,
           catchOutcome env world isAlb error info = Normal response
           /\ wellFormed response).
Proof.
  assert (N : forall v,
    v <> VUndefined -> v <> VNull ->
    ~ catchThrows env world (Thrown v)).
  { intros v N1 N2 [[[= E]|[= E]]|(own & [=] & _)]; congruence. }
  assert (P : forall v : value,
    v <> VUndefined -> v <> VNull ->
    (forall props, v <> VObj props) ->
    exists response,
      catchOutcome env world isAlb (Thrown v) info = Normal response
      /\ wellFormed response).
  { intros v N1 N2 N3.
    assert (C : propertyOf (Thrown v) "code" = Some VUndefined
                /\ propertyOf (Thrown v) "status" = Some VUndefined).
    { destruct v; try congruence; split; reflexivity. }
    destruct C as [C1 C2].
    unfold catchOutcome, structuredOutcome. rewrite C1, C2. simpl.
    destruct (fallbackConfigured env);
      [destruct (getObject world (fallbackRequest env)) as [object|e'];
       [destruct (Body object)|]|];
      eexists; (split; [reflexivity|]);
      try apply (wellFormed_structuredError [] isAlb);
      split; simpl; eauto. }
  destruct error as [v|own].
  - destruct v as [| |b|n|str|items|props];
      try (right; split; [apply N; discriminate
                         | apply P; intros; discriminate]).
    + left. split; [left; left; reflexivity | reflexivity].
    + left. split; [left; right; reflexivity | reflexivity].
    + right. split; [apply N; discriminate|].
      change (Thrown (VObj props)) with (ofObject props).
      rewrite catchOutcome_object. eexists. split; [reflexivity|].
      apply wellFormed_catchResponse.
  - unfold catchOutcome, structuredOutcome. simpl.
    destruct (strict_eq_str (get own "code") "TooLargeImageException") eqn:C.
    + right. apply strict_eq_str_spec in C. split.
      * intros [[[=]|[=]]|(own' & [= <-] & C' & _)]. congruence.
      * eexists. split; [reflexivity | apply wellFormed_redirect].
    + assert (C' : get own "code" <> VStr "TooLargeImageException").
      { intros H. apply strict_eq_str_spec in H. congruence. }
      destruct fallback_served_or_unavailable
        as [(object & bytes & F & O & B)|[U S]].
      * rewrite F, O, B. right. split.
        -- intros [[[=]|[=]]|(own' & _ & _ & _ & U)].
           exact (served_not_unavailable _ _ F O B U).
        -- eexists. split; [reflexivity|]. split; simpl; [|eauto].
           destruct (truthy (get own "status")) eqn:T; [exact T|reflexivity].
      * assert (E : forall k : completion ImageHandlerExecutionResult,
          (if fallbackConfigured env
           then match getObject world (fallbackRequest env) with
                | Normal object =>
                    match Body object with
                    | Some bytes =>
                        Normal {| statusCode :=
                                    if truthy (get own "status")
                                    then get own "status"
                                    else StatusCodes.INTERNAL_SERVER_ERROR;
                                  isBase64Encoded := true;
                                  headers := fallbackHeaders env object isAlb;
                                  body := VStr (Base64.encode bytes) |}
                    | None => k
                    end
                | Throw _ => k
                end
           else k) = k).
        { intros k. destruct (fallbackConfigured env); [|reflexivity].
          destruct (getObject world (fallbackRequest env)) as [object|e'];
            [rewrite S|]; reflexivity. }
        rewrite E.
        destruct (truthy (get own "status")) eqn:T.
        -- left. split; [right; exists own; auto | reflexivity].
        -- right. split.
           ++ intros [[[=]|[=]]|(own' & [= <-] & _ & T' & _)]. congruence.
           ++ eexists. split; [reflexivity|].
              apply (wellFormed_structuredError [] isAlb).
Qed.

(** C1, amended. For every inbound event, and whatever the request
    set-up, the image processing and the fallback-image fetch answer, the
    handler's promise is settled in exactly one of two ways.  Either it is
    fulfilled with one execution result, a record of [statusCode],
    [headers], [body] and [isBase64Encoded] whose status is set and whose
    body is a string (null in the 301 redirect only); this is so whenever
    the [try] block returns, and whenever what it throws is a value the
    [catch] block can handle.  Or the [try] block threw a value on which
    the [catch] block itself throws, and the promise is rejected with a
    [TypeError] that crosses the handler's boundary: [undefined] or
    [null], of which [error.code] cannot be read; or a value
    [JSON.stringify] fails on, whose code is not
    [TooLargeImageException] and whose status is truthy, while the
    default fallback image is not served. *)
Theorem handler_returns_unless_catch_throws event :
  (exists response,
     settled env world event = Normal response
     /\ wellFormed response
     /\ forall s error,
          attempt env world event = (s, Throw error) ->
          ~ catchThrows env world error)
  \/ (settled env world event = Throw TypeError
      /\ exists s error,
           attempt env world event = (s, Throw error)
           /\ catchThrows env world error).
Proof.
  destruct (attempt env world event) as [s [response|error]] eqn:A.
  - left. exists response. split; [eapply settled_of_return; eauto|].
    split; [|discriminate].
    revert A. destruct (setup world event) as [info|e] eqn:H.
    + destruct (Info.edits info) as [edits|] eqn:E.
      * destruct (passThrough info) eqn:G.
        -- rewrite (attempt_pass_through _ _ H G). intros [= _ <-].
           apply wellFormed_redirect.
        -- rewrite (attempt_process _ _ _ H E G).
           destruct (process world info); intros [= _ <-].
           split; simpl; eauto.
      * rewrite (attempt_edits_missing _ _ H E). discriminate.
    + rewrite (attempt_setup_throws _ _ H). discriminate.
  - rewrite (settled_of_thrown _ _ _ A).
    destruct (catchOutcome_cases (isAlb_of event) error (imageRequestInfo s))
      as [[T ->]|[T (response & -> & W)]].
    + right. split; [reflexivity|]. exists s, error. auto.
    + left. exists response. split; [reflexivity|]. split; [exact W|].
      intros s' error' [= _ <-]. exact T.
Qed.

End Invocation.

(** ** The properties on concrete requests *)

(** C1 as first stated fails: a set-up that rejects with [undefined]
    makes the [catch] block throw at [error.code], and so does an error
    with a cyclic object graph and a status at [JSON.stringify]; the
    promise is rejected, no result is returned. *)
Lemma catch_all_fails :
  settled env_plain world_rejects_undefined event_api = Throw TypeError
  /\ settled env_plain world_upstream_error event_api = Throw TypeError
  /\ ~ (forall env world event,
         exists response, settled env world event = Normal response).
Proof.
  assert (R : settled env_plain world_rejects_undefined event_api
              = Throw TypeError).
  { rewrite settled_cases. reflexivity. }
  split; [exact R|]. split; [rewrite settled_cases; reflexivity|].
  intros H.
  destruct (H env_plain world_rejects_undefined event_api) as [response E].
  rewrite R in E. discriminate E.
Qed.

(** A request for [cat.jpg] without edits is redirected to the CDN. *)
Lemma no_edits_redirect_witness :
  settled env_plain world_cat event_api
  = Normal {| statusCode := VNum 301;
              isBase64Encoded := false;
              headers := {[ "Location" := VStr "https://cdn.example.com/cat.jpg" ]};
              body := VNull |}
  /\ trace env_plain world_cat event_api = [CallSetup event_api].
Proof.
  exact (no_edits_redirect env_plain world_cat event_api info_cat "cat.jpg"
           eq_refl eq_refl eq_refl ltac:(discriminate)).
Defined.

(** A resized image behind a load balancer: the custom [Cache-Control]
    wins over the request's own, and no credentials header is sent. *)
Lemma processed_image_response_witness :
  exists response,
    settled env_plain world_resize event_alb = Normal response
    /\ statusCode response = VNum 200
    /\ isBase64Encoded response = true
    /\ body response = VStr "iVBORw0KGgo="
    /\ headers response !! "Cache-Control" = Some (VStr "no-cache")
    /\ headers response !! "Content-Type" = Some (VStr "image/png")
    /\ headers response !! "Expires" = Some VUndefined
    /\ headers response !! "Access-Control-Allow-Methods" = Some (VStr "GET")
    /\ headers response !! "Access-Control-Allow-Credentials" = None.
Proof.
  assert (G : Info.edits info_resize <> Some []) by discriminate.
  destruct (processed_image_response env_plain world_resize event_alb
              info_resize _ "iVBORw0KGgo=" eq_refl eq_refl
              (or_introl (fun E => G (f_equal Some E))) eq_refl)
    as (response & R & -> & L).
  eexists. split; [exact R|]. repeat split; vm_compute; reflexivity.
Defined.




(** The fallback image cannot be fetched: the error still comes back as
    JSON, with its own status. *)
Example failed_fetch_is_structured_error :
  exists text,
    settled env_fallback
      (world_of (Throw bad_request) (Normal EmptyString) (Throw no_such_key))
      event_api
    = Normal {| statusCode := VNum 400;
                isBase64Encoded := false;
                headers := getResponseHeaders env_fallback true VUndefined;
                body := VStr text |}
    /\ single_quoted text
       = "{'status':400,'code':'BadRequest','message':'invalid edits'}".
Proof. eexists. split; vm_compute; reflexivity. Qed.



(** ** Where the specification and the handler part ways *)




(** * Further properties *)

(** ** The header builder, header by header *)

(** X1. Whatever is asked for, [getResponseHeaders] returns these headers
    and no other: the allowed methods [GET] and the allowed headers,
    always; [Access-Control-Allow-Credentials] [true] unless the origin
    flag is truthy; [Access-Control-Allow-Origin] exactly when
    [CORS_ENABLED] is the string [Yes], with the value of [CORS_ORIGIN]
    ([undefined] when that is not set); [Content-Type]
    [application/json] exactly when [isError]. *)
Theorem getResponseHeaders_lookup env isError isAlb name :
  getResponseHeaders env isError isAlb !! name
  = if String.eqb name "Content-Type"
    then (if isError then Some (VStr "application/json") else None)
    else if String.eqb name "Access-Control-Allow-Origin"
    then (if bool_decide (CORS_ENABLED env = Some "Yes")
          then Some (of_option (CORS_ORIGIN env)) else None)
    else if String.eqb name "Access-Control-Allow-Credentials"
    then (if truthy isAlb then None else Some (VBool true))
    else if String.eqb name "Access-Control-Allow-Headers"
    then Some (VStr "Content-Type, Authorization")
    else if String.eqb name "Access-Control-Allow-Methods"
    then Some (VStr "GET")
    else None.
Proof.
  unfold getResponseHeaders.
  assert (E : match CORS_ENABLED env with
              | Some s => String.eqb s "Yes"
              | None => false
              end = bool_decide (CORS_ENABLED env = Some "Yes")).
  { destruct (CORS_ENABLED env) as [s|]; [|reflexivity].
    destruct (String.eqb_spec s "Yes") as [->|Hs]; [reflexivity|].
    symmetry. apply bool_decide_eq_false. congruence. }
  rewrite E. clear E.
  destruct isError, (truthy isAlb), (bool_decide (CORS_ENABLED env = Some "Yes"));
    cbn [negb];
    repeat rewrite lookup_insert; rewrite lookup_empty;
    repeat case_decide; subst; try reflexivity;
    repeat match goal with
           | |- context [String.eqb name ?lit] =>
               destruct (String.eqb_spec name lit); [congruence|]
           end; reflexivity.
Qed.

(** ** Every path of the typed handler *)

Section Paths.

Variable env : ProcessEnv.
Variable world : Collaborators.

(** The error the [try] block throws, path by path. *)
Lemma attempt_throws_cases event s (error : thrown) :
  attempt env world event = (s, Throw error) ->
  setup world event = Throw error
  \/ (exists info,
        setup world event = Normal info /\ Info.edits info = None
        /\ error = TypeError)
  \/ (exists info edits,
        setup world event = Normal info /\ Info.edits info = Some edits
        /\ passThrough info = false /\ process world info = Throw error).
Proof.
  destruct (setup world event) as [info|e] eqn:S.
  - destruct (Info.edits info) as [edits|] eqn:E.
    + destruct (passThrough info) eqn:G.
      * rewrite (attempt_pass_through _ _ _ _ S G). discriminate.
      * rewrite (attempt_process env _ _ _ _ S E G).
        destruct (process world info) eqn:P; intros [= _ <-].
        right. right. exists info, edits. auto.
    + rewrite (attempt_edits_missing env _ _ _ S E). intros [= _ <-].
      right. left. exists info. auto.
  - rewrite (attempt_setup_throws env _ _ _ S). intros [= _ <-]. left. reflexivity.
Qed.

Lemma catchCalls_cases (error : thrown) :
  catchCalls env error = []
  \/ catchCalls env error = [CallGetObject (fallbackRequest env)].
Proof.
  unfold catchCalls.
  destruct (propertyOf error "code") as [code|]; [|left; reflexivity].
  destruct (strict_eq_str _ _); [left; reflexivity|].
  destruct (fallbackConfigured env); [right|left]; reflexivity.
Qed.

(** X2. An invocation calls the request set-up first and once; then at
    most one image processing, on exactly the request description the
    set-up returned; then at most one fetch, of the configured fallback
    bucket and key.  Nothing is called twice and nothing in another
    order. *)
Theorem calls_once_in_order event :
  exists processCalls fetchCalls,
    trace env world event
    = (CallSetup event :: processCalls ++ fetchCalls)%list
    /\ (processCalls = []
        \/ exists info,
             setup world event = Normal info
             /\ processCalls = [CallProcess info])
    /\ (fetchCalls = []
        \/ fetchCalls = [CallGetObject (fallbackRequest env)]).
Proof.
  rewrite trace_cases.
  destruct (setup world event) as [info|error] eqn:S.
  - destruct (Info.edits info) as [edits|].
    + destruct (passThrough info).
      * exists [], []. auto.
      * destruct (process world info) as [payload|error].
        -- exists [CallProcess info], []. split; [reflexivity|].
           split; [right; exists info; auto | left; reflexivity].
        -- exists [CallProcess info], (catchCalls env error).
           split; [reflexivity|].
           split; [right; exists info; auto | apply catchCalls_cases].
    + exists [], (catchCalls env TypeError).
      split; [reflexivity|]. split; [auto|apply catchCalls_cases].
  - exists [], (catchCalls env error).
    split; [reflexivity|]. split; [auto|apply catchCalls_cases].
Qed.

Lemma not_in_catchCalls (error : thrown) info : ~ In (CallProcess info) (catchCalls env error).
Proof.
  destruct (catchCalls_cases error) as [-> | ->]; simpl; intuition discriminate.
Qed.

Lemma passThrough_false info edits :
  Info.edits info = Some edits ->
  passThrough info = false
  <-> edits <> [] \/ Info.key info = Some EmptyString.
Proof.
  intros E. split.
  - intros G. destruct edits as [|e edits]; [|left; discriminate].
    right. destruct (Info.key info) as [k|] eqn:K.
    + destruct (String.eqb_spec k EmptyString) as [->|Hk]; [reflexivity|].
      assert (T : passThrough info = true)
        by (apply passThrough_spec; split; congruence).
      congruence.
    + assert (T : passThrough info = true)
        by (apply passThrough_spec; split; congruence).
      congruence.
  - intros H. destruct (passThrough info) eqn:G; [|reflexivity].
    apply passThrough_spec in G as [G1 G2]. destruct H; congruence.
Qed.

(** X3. The image processing is called, with request description
    [info], exactly when the set-up returned [info], [info] has an edits
    mapping, and that mapping is not empty or the key is the empty
    string.  So an empty key is processed even without edits, and a
    description without edits mapping is never processed. *)
Theorem processing_called_iff event info :
  In (CallProcess info) (trace env world event)
  <-> setup world event = Normal info
      /\ exists edits,
           Info.edits info = Some edits
           /\ (edits <> [] \/ Info.key info = Some EmptyString).
Proof.
  rewrite trace_cases. split.
  - destruct (setup world event) as [info'|error] eqn:S.
    + destruct (Info.edits info') as [edits|] eqn:E.
      * destruct (passThrough info') eqn:G.
        -- simpl. intuition discriminate.
        -- assert (H : In (CallProcess info) [CallProcess info'] ->
                       Normal info' = Normal info
                       /\ exists edits0, Info.edits info = Some edits0
                            /\ (edits0 <> [] \/ Info.key info = Some EmptyString)).
           { intros [[= <-]|[]]. split; [reflexivity|].
             exists edits. split; [exact E|].
             apply (passThrough_false _ _ E). exact G. }
           destruct (process world info'); simpl.
           ++ intros [?|[?|[]]]; [discriminate|]. apply H. left. assumption.
           ++ intros [?|[?|?]]; [discriminate| |].
              ** apply H. left. assumption.
              ** exfalso. eapply not_in_catchCalls. eassumption.
      * simpl. intros [?|?]; [discriminate|].
        exfalso. eapply not_in_catchCalls. eassumption.
    + simpl. intros [?|?]; [discriminate|].
      exfalso. eapply not_in_catchCalls. eassumption.
  - intros (S & edits & E & H). rewrite S, E.
    apply (passThrough_false _ _ E) in H. rewrite H.
    destruct (process world info); simpl; auto.
Qed.

Lemma in_catchCalls (error : thrown) request :
  In (CallGetObject request) (catchCalls env error)
  <-> request = fallbackRequest env
      /\ fallbackConfigured env = true
      /\ exists code,
           propertyOf error "code" = Some code
           /\ code <> VStr "TooLargeImageException".
Proof.
  unfold catchCalls.
  destruct (propertyOf error "code") as [code|];
    [|simpl; split; [tauto | intros (_ & _ & code & [=] & _)]].
  destruct (strict_eq_str code "TooLargeImageException") eqn:C.
  - apply strict_eq_str_spec in C. simpl.
    split; [tauto | intros (_ & _ & code' & [= <-] & N); congruence].
  - assert (C' : code <> VStr "TooLargeImageException").
    { intros H. apply strict_eq_str_spec in H. congruence. }
    destruct (fallbackConfigured env); simpl.
    + split; [intros [[= <-]|[]]; eauto | intros (-> & _); auto].
    + split; [tauto | intros (_ & H & _); discriminate].
Qed.

Lemma fetch_called event request :
  In (CallGetObject request) (trace env world event)
  <-> request = fallbackRequest env
      /\ fallbackConfigured env = true
      /\ exists s (error : thrown) code,
           attempt env world event = (s, Throw error)
           /\ propertyOf error "code" = Some code
           /\ code <> VStr "TooLargeImageException".
Proof.
  destruct (attempt env world event) as [s [response|error]] eqn:A.
  - split.
    + unfold trace. rewrite invoke_attempt, A. simpl. intros H. exfalso.
      revert A H. destruct (setup world event) as [info|e] eqn:S.
      * destruct (Info.edits info) as [edits|] eqn:E.
        -- destruct (passThrough info) eqn:G.
           ++ rewrite (attempt_pass_through _ _ _ _ S G). intros [= <- _].
              simpl. intuition discriminate.
           ++ rewrite (attempt_process env _ _ _ _ S E G).
              destruct (process world info); intros [= <- _].
              simpl. intuition discriminate.
        -- rewrite (attempt_edits_missing env _ _ _ S E). discriminate.
      * rewrite (attempt_setup_throws env _ _ _ S). discriminate.
    + intros (_ & _ & s' & e & code & [=] & _).
  - rewrite (trace_of_throw _ _ _ _ _ A), in_app_iff, in_catchCalls.
    split.
    + intros [H|(R & F & code & P & C)].
      * exfalso. revert A H. destruct (setup world event) as [info|e] eqn:S.
        -- destruct (Info.edits info) as [edits|] eqn:E.
           ++ destruct (passThrough info) eqn:G.
              ** rewrite (attempt_pass_through _ _ _ _ S G). discriminate.
              ** rewrite (attempt_process env _ _ _ _ S E G).
                 destruct (process world info); intros [= <- _].
                 simpl. intuition discriminate.
           ++ rewrite (attempt_edits_missing env _ _ _ S E). intros [= <- _].
              simpl. intuition discriminate.
        -- rewrite (attempt_setup_throws env _ _ _ S). intros [= <- _].
           simpl. intuition discriminate.
      * split; [exact R|]. split; [exact F|]. exists s, error, code. auto.
    + intros (R & F & s' & e & code & [= <- <-] & P & C). right. eauto.
Qed.


(** X4. Object storage is asked for the fallback image exactly when the
    [try] block threw a value whose code can be read and is not
    [TooLargeImageException] (an error without a code included) and the
    default fallback is enabled ([Yes]) with a bucket and a key that are
    not blank; the request then names that bucket and that key.  A
    response that needs no fallback never touches object storage. *)
Theorem fetch_called_iff event request :
  In (CallGetObject request) (trace env world event)
  <-> request = {| Bucket := DEFAULT_FALLBACK_IMAGE_BUCKET env;
                   Key := DEFAULT_FALLBACK_IMAGE_KEY env |}
      /\ ENABLE_DEFAULT_FALLBACK_IMAGE env = Some "Yes"
      /\ isNullOrWhiteSpace (DEFAULT_FALLBACK_IMAGE_BUCKET env) = false
      /\ isNullOrWhiteSpace (DEFAULT_FALLBACK_IMAGE_KEY env) = false
      /\ exists s (error : thrown) code,
           attempt env world event = (s, Throw error)
           /\ propertyOf error "code" = Some code
           /\ code <> VStr "TooLargeImageException".
Proof.
  rewrite fetch_called, fallbackConfigured_spec. unfold fallbackRequest.
  tauto.
Qed.

(** Which tier answers an error that is not a too-large one. *)
Lemma catchResponse_tiers isAlb (error : ErrorObject) info :
  get error "code" <> VStr "TooLargeImageException" ->
  (exists object bytes,
     fallbackConfigured env = true
     /\ getObject world (fallbackRequest env) = Normal object
     /\ Body object = Some bytes
     /\ catchResponse env world isAlb error info
        = fallbackResponse env error isAlb object bytes)
  \/ (fallbackUnavailable env world
      /\ catchResponse env world isAlb error info
         = structuredError env error isAlb).
Proof.
  intros C.
  destruct (fallbackConfigured env) eqn:F.
  - destruct (getObject world (fallbackRequest env)) as [object|e'] eqn:O.
    + destruct (Body object) as [bytes|] eqn:B.
      * left. exists object, bytes. repeat split; auto.
        apply catchResponse_served; auto.
      * assert (U : fallbackUnavailable env world)
          by (do 4 right; exists object; auto).
        right. split; [exact U | apply catchResponse_unavailable; auto].
    + assert (U : fallbackUnavailable env world)
        by (do 3 right; left; exists e'; auto).
      right. split; [exact U | apply catchResponse_unavailable; auto].
  - assert (U : fallbackUnavailable env world).
    { destruct (decide (ENABLE_DEFAULT_FALLBACK_IMAGE env = Some "Yes"))
        as [E|E]; [|left; exact E].
      destruct (isNullOrWhiteSpace (DEFAULT_FALLBACK_IMAGE_BUCKET env)) eqn:B;
        [right; left; exact B|].
      destruct (isNullOrWhiteSpace (DEFAULT_FALLBACK_IMAGE_KEY env)) eqn:K;
        [right; right; left; exact K|].
      assert (T : fallbackConfigured env = true)
        by (apply fallbackConfigured_spec; auto).
      congruence. }
    right. split; [exact U | apply catchResponse_unavailable; auto].
Qed.

(** X5. A request description that comes back from the set-up without
    an edits mapping makes [Object.keys] throw inside the [try] block;
    the handler answers as for any internal error: the image processing
    is not called, the status is 500, and unless the default fallback
    image is served the body is the generic [InternalError] JSON with the
    error headers. *)
Theorem missing_edits_is_internal_error event info :
  setup world event = Normal info ->
  Info.edits info = None ->
  exists response,
    settled env world event = Normal response
    /\ statusCode response = VNum 500
    /\ (forall i, ~ In (CallProcess i) (trace env world event))
    /\ (fallbackUnavailable env world ->
        response
        = {| statusCode := VNum 500;
             isBase64Encoded := false;
             headers := getResponseHeaders env true (isAlb_of event);
             body := VStr (JSON.render (JSON.JObj internalError)) |}).
Proof.
  intros S E.
  assert (C : get TypeError "code" <> VStr "TooLargeImageException")
    by discriminate.
  assert (T : truthy (get TypeError "status") = false) by reflexivity.
  eexists.
  split; [rewrite settled_cases, S, E; apply catchOutcome_object|].
  split; [|split].
  - destruct (catchResponse_tiers (isAlb_of event) TypeError info C)
      as [(object & bytes & _ & _ & _ & ->)|[_ ->]]; reflexivity.
  - intros i. rewrite trace_cases, S, E. simpl. intros [?|H]; [discriminate|].
    eapply not_in_catchCalls. exact H.
  - intros U. rewrite (catchResponse_unavailable _ _ _ _ _ C U).
    apply structuredError_falsy, T.
Qed.


(** The three kinds, for what the [catch] block returns; when it does not
    return, it throws a [TypeError]. *)
Lemma catchOutcome_kinds isAlb (error : thrown) info :
  match catchOutcome env world isAlb error info with
  | Normal response =>
      (isBase64Encoded response = true
       /\ exists text, body response = VStr text)
      \/ (isBase64Encoded response = false
          /\ statusCode response = VNum 301
          /\ body response = VNull
          /\ exists location,
               headers response = {[ "Location" := VStr location ]})
      \/ (isBase64Encoded response = false
          /\ headers response !! "Content-Type"
             = Some (VStr "application/json")
          /\ exists members,
               body response = VStr (JSON.render (JSON.JObj members))
               /\ assoc "status" members
                  = JSON.of_value (statusCode response))
  | Throw e => e = TypeError
  end.
Proof.
  assert (J : forall (status : value) text members,
    text = VStr (JSON.render (JSON.JObj members)) ->
    assoc "status" members = JSON.of_value status ->
    let response :=
      {| statusCode := status; isBase64Encoded := false;
         headers := getResponseHeaders env true isAlb; body := text |} in
    (isBase64Encoded response = true
     /\ exists text, body response = VStr text)
    \/ (isBase64Encoded response = false
        /\ statusCode response = VNum 301
        /\ body response = VNull
        /\ exists location,
             headers response = {[ "Location" := VStr location ]})
    \/ (isBase64Encoded response = false
        /\ headers response !! "Content-Type"
           = Some (VStr "application/json")
        /\ exists members,
             body response = VStr (JSON.render (JSON.JObj members))
             /\ assoc "status" members
                = JSON.of_value (statusCode response))).
  { intros status text members -> M response. right. right.
    split; [reflexivity|].
    split; [apply getResponseHeaders_error_content_type|].
    exists members. split; [reflexivity | exact M]. }
  assert (G : structuredError env [] isAlb
              = {| statusCode := VNum 500; isBase64Encoded := false;
                   headers := getResponseHeaders env true isAlb;
                   body := VStr (JSON.render (JSON.JObj internalError)) |}).
  { apply structuredError_falsy. reflexivity. }
  assert (S : match structuredOutcome env error isAlb with
              | Normal response =>
                  (isBase64Encoded response = true
                   /\ exists text, body response = VStr text)
                  \/ (isBase64Encoded response = false
                      /\ statusCode response = VNum 301
                      /\ body response = VNull
                      /\ exists location,
                           headers response = {[ "Location" := VStr location ]})
                  \/ (isBase64Encoded response = false
                      /\ headers response !! "Content-Type"
                         = Some (VStr "application/json")
                      /\ exists members,
                           body response = VStr (JSON.render (JSON.JObj members))
                           /\ assoc "status" members
                              = JSON.of_value (statusCode response))
              | Throw e => e = TypeError
              end).
  { unfold structuredOutcome. rewrite G.
    destruct error as [v|own].
    - destruct v as [| |b|n|str|items|props]; cbn [propertyOf];
        try reflexivity;
        try (cbn [truthy]; apply (J (VNum 500) _ internalError); reflexivity).
      destruct (truthy (get props "status")) eqn:T;
        [|apply (J (VNum 500) _ internalError); reflexivity].
      apply (J _ _ (JSON.members_of props)); [apply stringify_object|].
      apply members_of_defined, truthy_defined, T.
    - cbn [propertyOf]. destruct (truthy (get own "status"));
        [reflexivity|apply (J (VNum 500) _ internalError); reflexivity]. }
  unfold catchOutcome.
  destruct (propertyOf error "code") as [code|]; [|reflexivity].
  destruct (strict_eq_str _ _).
  { right. left. repeat split. eexists. reflexivity. }
  destruct (fallbackConfigured env); [|exact S].
  destruct (getObject world (fallbackRequest env)) as [object|e'];
    [|exact S].
  destruct (Body object) as [bytes|]; [|exact S].
  left. split; [reflexivity|]. eexists. reflexivity.
Qed.

(** X7. Every response of the handler is of one of three kinds: an
    encoded image (base64 flag set, a string body); a redirect (status
    301, null body, [Location] as the only header); or a JSON error
    (declared as [application/json], the body the text of a JSON object
    whose [status] member is the JSON form of the response's status).
    When the handler returns no response, its promise is rejected with a
    [TypeError]. *)
Theorem response_kinds event :
  (exists response,
     settled env world event = Normal response
     /\ ((isBase64Encoded response = true
          /\ exists text, body response = VStr text)
         \/ (isBase64Encoded response = false
             /\ statusCode response = VNum 301
             /\ body response = VNull
             /\ exists location,
                  headers response = {[ "Location" := VStr location ]})
         \/ (isBase64Encoded response = false
             /\ headers response !! "Content-Type"
                = Some (VStr "application/json")
             /\ exists members,
                  body response = VStr (JSON.render (JSON.JObj members))
                  /\ assoc "status" members
                     = JSON.of_value (statusCode response))))
  \/ settled env world event = Throw TypeError.
Proof.
  assert (K : forall (error : thrown) info,
    (exists response,
       catchOutcome env world (isAlb_of event) error info = Normal response
       /\ ((isBase64Encoded response = true
            /\ exists text, body response = VStr text)
           \/ (isBase64Encoded response = false
               /\ statusCode response = VNum 301
               /\ body response = VNull
               /\ exists location,
                    headers response = {[ "Location" := VStr location ]})
           \/ (isBase64Encoded response = false
               /\ headers response !! "Content-Type"
                  = Some (VStr "application/json")
               /\ exists members,
                    body response = VStr (JSON.render (JSON.JObj members))
                    /\ assoc "status" members
                       = JSON.of_value (statusCode response))))
    \/ catchOutcome env world (isAlb_of event) error info = Throw TypeError).
  { intros error info.
    pose proof (catchOutcome_kinds (isAlb_of event) error info) as H.
    destruct (catchOutcome env world (isAlb_of event) error info)
      as [response|e]; [left; eauto | right; rewrite H; reflexivity]. }
  rewrite settled_cases.
  destruct (setup world event) as [info|error]; [|apply K].
  destruct (Info.edits info); [|apply K].
  destruct (passThrough info).
  { left. eexists. split; [reflexivity|]. right. left. repeat split.
    eexists. reflexivity. }
  destruct (process world info); [|apply K].
  left. eexists. split; [reflexivity|].
  left. split; [reflexivity|]. eexists. reflexivity.
Qed.

End Paths.

(** ** The earlier handler *)

Section LegacyPaths.

Variable env : ProcessEnv.
Variable world : Collaborators.

(** X8. The earlier header builder and the typed one agree on errors
    when the typed one is asked for an origin that is not a load
    balancer; without an error they differ in one header only, the
    default [Content-Type] [image] the earlier builder sets.  The earlier
    builder always sends [Access-Control-Allow-Credentials] and always
    sends a [Content-Type]. *)
Theorem legacy_builder_vs_typed isErr :
  Legacy.getResponseHeaders env isErr
  = (if truthy isErr
     then getResponseHeaders env true (VBool false)
     else <["Content-Type" := VStr "image"]>
            (getResponseHeaders env false (VBool false)))
  /\ Legacy.getResponseHeaders env isErr !! "Access-Control-Allow-Credentials"
     = Some (VBool true)
  /\ Legacy.getResponseHeaders env isErr !! "Content-Type"
     = Some (VStr (if truthy isErr then "application/json" else "image")).
Proof.
  unfold Legacy.getResponseHeaders, getResponseHeaders.
  destruct (truthy isErr), (CORS_ENABLED env) as [s|];
    try destruct (String.eqb s "Yes"); cbn [negb truthy];
    (split; [apply map_eq; intros name|split]);
    repeat rewrite lookup_insert; rewrite ?lookup_empty;
    repeat case_decide; subst; try discriminate; try congruence; reflexivity.
Qed.


Lemma legacy_attempt_cases event :
  Legacy.attempt env world event
  = match setup world event with
    | Throw err => (after_setup event, Throw err)
    | Normal request =>
        match Info.edits request with
        | None => (after_setup event, Throw TypeError)
        | Some props =>
            if truthy (default VUndefined (assoc "noDimPath" props))
            then
              (after_setup event,
               Normal
                 {| Legacy.statusCode := VNum 301;
                    Legacy.headers :=
                      {[ "Location" :=
                           VStr (interpolate (HIGHRES_CDN_URL env) +:+ "/" +:+
                                 interpolate (Info.key request)) ]};
                    Legacy.body := None;
                    Legacy.isBase64Encoded := None |})
            else
              ({| imageRequestInfo := Info.empty;
                  calls := [CallSetup event; CallProcess request];
                  headerCalls := [] |},
               match process world request with
               | Normal payload =>
                   Normal
                     {| Legacy.statusCode := VNum 200;
                        Legacy.headers := Legacy.getResponseHeaders env VUndefined;
                        Legacy.body := Some (VStr payload);
                        Legacy.isBase64Encoded := Some true |}
               | Throw err => Throw err
               end)
        end
    end.
Proof.
  unfold Legacy.attempt, Legacy.tryBlock, Legacy.noDimPath_of. run.
  destruct (setup world event) as [request|err]; [|reflexivity]. simpl.
  destruct (Info.edits request) as [props|]; [|reflexivity]. simpl.
  destruct (truthy (default VUndefined (assoc "noDimPath" props)));
    [reflexivity|]. simpl.
  destruct (process world request); reflexivity.
Qed.

(** The [catch] block of the earlier handler calls no collaborator; it
    ends as [Legacy.catchOutcome] says. *)
Lemma legacy_catchBlock_runs (err : thrown) s :
  Legacy.catchBlock env err s = (s, Legacy.catchOutcome env err).
Proof.
  unfold Legacy.catchBlock, Legacy.catchOutcome.
  destruct err as [v|own]; [destruct v|]; reflexivity.
Qed.


Lemma legacy_handler_attempt event :
  Legacy.handler env world event initial
  = match Legacy.attempt env world event with
    | (s, Normal response) => (s, Normal response)
    | (s, Throw err) => (s, Legacy.catchOutcome env err)
    end.
Proof.
  unfold Legacy.handler, Legacy.attempt, try_catch.
  destruct (Legacy.tryBlock env world event initial) as [s [response|err]];
    [reflexivity | apply legacy_catchBlock_runs].
Qed.


(** X10. When the edits of the request carry a truthy [noDimPath], the
    earlier handler does not call the image processing and answers with
    status 301 and the single header [Location], the CDN base followed by
    a slash and the key; the response has no [body] and no
    [isBase64Encoded] property. *)
Theorem legacy_no_dim_path_redirects event request props :
  setup world event = Normal request ->
  Info.edits request = Some props ->
  truthy (default VUndefined (assoc "noDimPath" props)) = true ->
  Legacy.settled env world event
  = Normal {| Legacy.statusCode := VNum 301;
              Legacy.headers :=
                {[ "Location" :=
                     VStr (interpolate (HIGHRES_CDN_URL env) +:+ "/" +:+
                           interpolate (Info.key request)) ]};
              Legacy.body := None;
              Legacy.isBase64Encoded := None |}
  /\ Legacy.trace env world event = [CallSetup event].
Proof.
  intros S E T. unfold Legacy.settled, Legacy.trace.
  rewrite legacy_handler_attempt, legacy_attempt_cases, S, E, T.
  split; reflexivity.
Qed.



(** X14. A request description that comes back from the set-up without
    edits makes the earlier handler fail on [request.edits.noDimPath];
    the image processing is not called and the response has an undefined
    status and an empty JSON object as body, since the [TypeError] has no
    status and no enumerable property. *)
Theorem legacy_missing_edits event request :
  setup world event = Normal request ->
  Info.edits request = None ->
  Legacy.settled env world event
  = Normal {| Legacy.statusCode := VUndefined;
              Legacy.headers := Legacy.getResponseHeaders env (VBool true);
              Legacy.body := Some (VStr "{}");
              Legacy.isBase64Encoded := Some false |}
  /\ Legacy.trace env world event = [CallSetup event].
Proof.
  intros S E. unfold Legacy.settled, Legacy.trace.
  rewrite legacy_handler_attempt, legacy_attempt_cases, S, E.
  split; reflexivity.
Qed.


End LegacyPaths.

(** ** The credentials header behind a load balancer *)

Section Credentials.

Variable env : ProcessEnv.
Variable world : Collaborators.

Lemma catchOutcome_no_credentials isAlb (error : thrown) info response :
  truthy isAlb = true ->
  catchOutcome env world isAlb error info = Normal response ->
  headers response !! "Access-Control-Allow-Credentials" = None.
Proof.
  intros T R.
  pose proof (getResponseHeaders_credentials env true isAlb) as Ht.
  pose proof (getResponseHeaders_credentials env false isAlb) as Hf.
  rewrite T in Ht, Hf.
  destruct (catchOutcome_headers _ _ _ _ _ _ R)
    as [->|[(object & _ & ->)| ->]]; [reflexivity| |exact Ht].
  unfold fallbackHeaders.
  repeat (rewrite lookup_insert_ne by discriminate). exact Hf.
Qed.

(** X13. For an event from a load balancer no response of the handler
    carries [Access-Control-Allow-Credentials], with one exception: a
    processed image whose request description brings that header among
    its custom headers, which are copied over the builder's output.
    When the handler returns no response, its promise is rejected with a
    [TypeError]. *)
Theorem no_credentials_behind_load_balancer event :
  truthy (isAlb_of event) = true ->
  (exists response,
     settled env world event = Normal response
     /\ (headers response !! "Access-Control-Allow-Credentials" = None
         \/ exists info custom v,
              setup world event = Normal info
              /\ Info.headers info = Some custom
              /\ custom !! "Access-Control-Allow-Credentials" = Some v
              /\ headers response !! "Access-Control-Allow-Credentials" = Some v))
  \/ settled env world event = Throw TypeError.
Proof.
  intros T.
  assert (K : forall (error : thrown) info (P : ImageHandlerExecutionResult -> Prop),
    (exists response,
       catchOutcome env world (isAlb_of event) error info = Normal response
       /\ (headers response !! "Access-Control-Allow-Credentials" = None
           \/ P response))
    \/ catchOutcome env world (isAlb_of event) error info = Throw TypeError).
  { intros error info P.
    destruct (catchOutcome_cases env world (isAlb_of event) error info)
      as [[_ E]|[_ (response & E & _)]]; [right; exact E|].
    left. exists response. split; [exact E|]. left.
    exact (catchOutcome_no_credentials _ _ _ _ T E). }
  rewrite settled_cases.
  destruct (setup world event) as [info|error] eqn:S; [|apply K].
  destruct (Info.edits info); [|apply K].
  destruct (passThrough info);
    [left; eexists; split; [reflexivity|left; reflexivity]|].
  destruct (process world info); [|apply K].
  left. eexists. split; [reflexivity|]. cbn [headers].
  pose proof (getResponseHeaders_credentials env false (isAlb_of event)) as Hf.
  rewrite T in Hf.
  assert (B : (requestHeaders info ∪ getResponseHeaders env false (isAlb_of event))
                !! "Access-Control-Allow-Credentials" = None).
  { rewrite lookup_union, Hf. unfold requestHeaders.
    repeat (rewrite lookup_insert_ne by discriminate).
    rewrite lookup_singleton_ne by discriminate. reflexivity. }
  rewrite successHeaders_merge, lookup_union, B.
  destruct (Info.headers info) as [custom|] eqn:H; simpl.
  - destruct (custom !! "Access-Control-Allow-Credentials") as [v|] eqn:L.
    + right. exists info, custom, v. auto.
    + left. reflexivity.
  - left. rewrite lookup_empty. reflexivity.
Qed.

End Credentials.

(** ** The further properties on concrete requests *)

(** A request description without edits is answered with the generic
    error. *)
Lemma missing_edits_is_internal_error_witness :
  exists response text,
    settled env_plain world_without_edits event_api = Normal response
    /\ statusCode response = VNum 500
    /\ body response = VStr text
    /\ single_quoted text
       = "{'message':'Internal error. Please contact the system administrator.','code':'InternalError','status':500}".
Proof.
  assert (U : fallbackUnavailable env_plain world_without_edits)
    by (left; discriminate).
  destruct (missing_edits_is_internal_error env_plain world_without_edits
              event_api info_without_edits eq_refl eq_refl)
    as (response & R & S & _ & B).
  exists response. eexists. split; [exact R|]. split; [exact S|].
  rewrite (B U). split; reflexivity.
Defined.


(** A load balancer's request for a resized image whose custom headers
    do not mention credentials. *)
Lemma no_credentials_behind_load_balancer_witness :
  exists response,
    settled env_fallback world_resize event_alb = Normal response
    /\ (headers response !! "Access-Control-Allow-Credentials" = None
        \/ exists info custom v,
             setup world_resize event_alb = Normal info
             /\ Info.headers info = Some custom
             /\ custom !! "Access-Control-Allow-Credentials" = Some v
             /\ headers response !! "Access-Control-Allow-Credentials" = Some v).
Proof.
  destruct (no_credentials_behind_load_balancer env_fallback world_resize
              event_alb eq_refl) as [H|H]; [exact H|].
  rewrite settled_cases in H. discriminate H.
Defined.

(** [noDimPath] sends the client to the original image. *)
Lemma legacy_no_dim_path_redirects_witness :
  Legacy.settled env_plain world_no_dim_path event_api
  = Normal {| Legacy.statusCode := VNum 301;
              Legacy.headers :=
                {[ "Location" := VStr "https://cdn.example.com/cat.jpg" ]};
              Legacy.body := None;
              Legacy.isBase64Encoded := None |}
  /\ Legacy.trace env_plain world_no_dim_path event_api = [CallSetup event_api].
Proof.
  exact (legacy_no_dim_path_redirects env_plain world_no_dim_path event_api
           info_no_dim_path _ eq_refl eq_refl eq_refl).
Defined.



(** The earlier handler on a request description without edits. *)
Lemma legacy_missing_edits_witness :
  exists response,
    Legacy.settled env_plain world_without_edits event_api = Normal response
    /\ Legacy.statusCode response = VUndefined
    /\ Legacy.body response = Some (VStr "{}")
    /\ Legacy.headers response !! "Content-Type"
       = Some (VStr "application/json").
Proof.
  pose proof (proj1 (legacy_missing_edits env_plain world_without_edits
                       event_api info_without_edits eq_refl eq_refl)) as R.
  eexists. split; [exact R|]. repeat split.
Defined.
